(** * ml-cybersecurity-app: the prediction telemetry of [frontend/src/App.js]

    A shallow embedding of the React front end's data paths: the confidence
    histogram of [ConfidenceChart], the simulated trend window of
    [AnalyticsDashboard], the submit handlers of [SpamDetector] and
    [MalwareDetector], and the malware form of [MalwareDetector].

    JavaScript Numbers are IEEE 754 binary64 values.  They are modelled by
    the Standard Library's [spec_float] at precision 53 and maximal exponent
    1024, so that comparisons, products and roundings are the ones the
    program performs. *)

From Stdlib Require Import ZArith List String Ascii Bool Lia DecimalString.
From Stdlib Require Import Floats.
From Stdlib Require Import Permutation.
Import ListNotations.

Set Warnings "-inexact-float,-register-all".

Local Open Scope string_scope.
Local Open Scope list_scope.
Local Open Scope Z_scope.

(* ===================================================================== *)
(** * Part I: the program                                                 *)
(* ===================================================================== *)

(** ** JavaScript values used by the program *)

Module Js.

(** A Number: a binary64 value.  [S754_nan] is NaN. *)
Definition Number : Type := spec_float.

Definition NaN : Number := S754_nan.
Definition Infinity : Number := S754_infinity false.

(** The Number of a mathematical integer, rounded to nearest, ties to even
    (the integers used below that are under 2^53 are exact). *)
Definition of_Z (z : Z) : Number := binary_normalize prec emax z 0 false.

(** [x >= y] and [x < y] on Numbers: false as soon as one side is NaN. *)
Definition ge (x y : Number) : bool := SFleb y x.
Definition lt (x y : Number) : bool := SFltb x y.

Definition mul (x y : Number) : Number := SF64mul x y.
Definition add (x y : Number) : Number := SF64add x y.

(** ToBoolean on a Number: NaN, +0 and -0 are falsy. *)
Definition truthy (x : Number) : bool :=
  match x with
  | S754_nan | S754_zero _ => false
  | _ => true
  end.

(** [x || y] on Numbers. *)
Definition or_else (x y : Number) : Number := if truthy x then x else y.

Definition is_finite (x : Number) : bool :=
  match x with
  | S754_zero _ | S754_finite _ _ _ => true
  | _ => false
  end.

(** [Number.isInteger]: a finite value with no fractional part. *)
Definition isInteger (x : Number) : bool :=
  match x with
  | S754_zero _ => true
  | S754_finite _ m e => (0 <=? e) || (Zpos m mod 2 ^ (- e) =? 0)
  | _ => false
  end.

(** [Math.floor]: zeros, infinities and NaN are returned as they are; a
    finite value with a non-negative exponent is already an integer. *)
Definition Math_floor (x : Number) : Number :=
  match x with
  | S754_finite s m e =>
      if 0 <=? e then x
      else
        match Z.shiftr (cond_Zopp s (Zpos m)) (- e) with
        | Z0 => S754_zero s
        | q => of_Z q
        end
  | _ => x
  end.

(** [x.toFixed(0)] for a finite [x] below 10^21 in magnitude: the decimal
    digits of the integer nearest to [x], the larger one on a tie, after
    the sign of a negative [x].  NaN and the infinities print as
    ToString does.  (At 10^21 and above toFixed falls back to the
    exponent notation of ToString; no caller in this program gets there,
    and the digits are printed in full here.) *)
Definition nearest_half_up (m : positive) (e : Z) : Z :=
  if 0 <=? e then Z.shiftl (Zpos m) e
  else Z.shiftr (Zpos m + Z.shiftl 1 (- e - 1)) (- e).

Definition digits_of (n : Z) : string :=
  NilZero.string_of_uint (N.to_uint (Z.to_N n)).

Definition toFixed0 (x : Number) : string :=
  match x with
  | S754_nan => "NaN"
  | S754_infinity false => "Infinity"
  | S754_infinity true => "-Infinity"
  | S754_zero _ => "0"
  | S754_finite s m e =>
      ((if s then "-" else "") ++ digits_of (nearest_half_up m e))%string
  end.

(** The Number literals of the source, as binary64 values. *)
Definition lit_0 : Number := S754_zero false.
Definition lit_0_1 : Number := S754_finite false 7205759403792794 (-56).
Definition lit_0_2 : Number := S754_finite false 7205759403792794 (-55).
Definition lit_0_3 : Number := S754_finite false 5404319552844595 (-54).
Definition lit_0_4 : Number := S754_finite false 7205759403792794 (-54).
Definition lit_0_5 : Number := S754_finite false 4503599627370496 (-53).
Definition lit_0_6 : Number := S754_finite false 5404319552844595 (-53).
Definition lit_0_7 : Number := S754_finite false 6305039478318694 (-53).
Definition lit_0_8 : Number := S754_finite false 7205759403792794 (-53).
Definition lit_0_9 : Number := S754_finite false 8106479329266893 (-53).
Definition lit_1 : Number := S754_finite false 4503599627370496 (-52).
Definition lit_3 : Number := S754_finite false 6755399441055744 (-51).
Definition lit_5 : Number := S754_finite false 5629499534213120 (-50).
Definition lit_15 : Number := S754_finite false 8444249301319680 (-49).
Definition lit_20 : Number := S754_finite false 5629499534213120 (-48).
Definition lit_100 : Number := S754_finite false 7036874417766400 (-46).

(** A String is a sequence of UTF-16 code units; [length] is its
    [.length].  [str] reads a literal whose characters are below 256. *)
Definition String : Type := list N.

Definition str (s : string) : String :=
  List.map N_of_ascii (list_ascii_of_string s).

(** *** [parseInt(string)], with no radix given *)

(** WhiteSpace and LineTerminator code units. *)
Definition isWhiteSpace (c : N) : bool :=
  ((9 <=? c) && (c <=? 13) || (c =? 32) || (c =? 160) || (c =? 5760)
   || (8192 <=? c) && (c <=? 8202) || (c =? 8232) || (c =? 8233)
   || (c =? 8239) || (c =? 8287) || (c =? 12288) || (c =? 65279))%N.

Fixpoint trimStart (s : String) : String :=
  match s with
  | c :: s' => if isWhiteSpace c then trimStart s' else s
  | [] => []
  end.

(** The value of a code unit as a digit: 0-9, then a-z or A-Z for 10-35. *)
Definition digitValue (c : N) : option Z :=
  if ((48 <=? c) && (c <=? 57))%N then Some (Z.of_N c - 48)
  else if ((97 <=? c) && (c <=? 122))%N then Some (Z.of_N c - 87)
  else if ((65 <=? c) && (c <=? 90))%N then Some (Z.of_N c - 55)
  else None.

(** The digits of the longest prefix of [s] made of radix-[R] digits. *)
Fixpoint digitsPrefix (R : Z) (s : String) : list Z :=
  match s with
  | c :: s' =>
      match digitValue c with
      | Some d => if d <? R then d :: digitsPrefix R s' else []
      | None => []
      end
  | [] => []
  end.

(** The integer that a list of radix-[R] digits denotes. *)
Definition mathInt (R : Z) (ds : list Z) : Z :=
  List.fold_left (fun acc d => acc * R + d) ds 0.

(** The steps of parseInt: leading white space is dropped, then one sign,
    then [0x] or [0X] (which selects radix 16, the radix being 10
    otherwise); the digits that follow are read up to the first code unit
    that is not a digit; no digit gives NaN, the integer 0 gives a zero of
    the sign read, and any other integer is rounded to a Number.  (Every
    digit counts: an engine may also zero the decimal digits after the
    twentieth.) *)
Definition parseInt (string : String) : Number :=
  let s0 := trimStart string in
  let sign := match s0 with 45%N :: _ => -1 | _ => 1 end in
  let s1 := match s0 with (43%N | 45%N) :: s' => s' | _ => s0 end in
  let '(R, s2) :=
    match s1 with
    | 48%N :: (120%N | 88%N) :: s' => (16, s')
    | _ => (10, s1)
    end in
  match digitsPrefix R s2 with
  | [] => NaN
  | ds =>
      let n := mathInt R ds in
      if n =? 0 then S754_zero (sign <? 0) else of_Z (sign * n)
  end.

(** *** Division and [toFixed] with digits after the point *)

Definition div (x y : Number) : Number := SF64div x y.

(** The decimal digits of [n], a point before the last [f] of them, zeros
    being put in front when there are not more than [f] digits. *)
Definition fixedDigits (f : nat) (n : Z) : string :=
  let m := digits_of n in
  match f with
  | O => m
  | _ =>
      let k := String.length m in
      let m' :=
        if (k <=? f)%nat
        then (string_of_list_ascii (List.repeat "0"%char (f + 1 - k)) ++ m)%string
        else m in
      let k' := String.length m' in
      (String.substring 0 (k' - f) m' ++ "."
       ++ String.substring (k' - f) f m')%string
  end.

(** [x.toFixed(f)] for a finite [x] below 10^21 in magnitude: the integer
    [n] nearest to [x * 10^f], the larger one on a tie, printed with [f]
    digits after the point. *)
Definition toFixed (f : nat) (x : Number) : string :=
  match x with
  | S754_nan => "NaN"
  | S754_infinity false => "Infinity"
  | S754_infinity true => "-Infinity"
  | S754_zero _ => fixedDigits f 0
  | S754_finite s m e =>
      ((if s then "-" else "")
       ++ fixedDigits f
            (nearest_half_up (m * Pos.of_nat (10 ^ f)) e))%string
  end.

(** *** ToNumber on a String *)

(** A String without its leading and trailing white space. *)
Definition trim (s : String) : String :=
  List.rev (trimStart (List.rev (trimStart s))).

(** The longest prefix of decimal digits of [s], and what follows it. *)
Fixpoint spanDigits (s : String) : String * String :=
  match s with
  | c :: s' =>
      if ((48 <=? c) && (c <=? 57))%N
      then let '(ds, rest) := spanDigits s' in (c :: ds, rest)
      else ([], s)
  | [] => ([], [])
  end.

Definition digitsValue (ds : String) : Z :=
  List.fold_left (fun acc c => acc * 10 + (Z.of_N c - 48)) ds 0.

(** What may follow the mantissa of a decimal literal: nothing, or [e] or
    [E], an optional sign and at least one digit, up to the end. *)
Definition exponentPart (s : String) : option Z :=
  match s with
  | [] => Some 0
  | c :: s' =>
      if ((c =? 101) || (c =? 69))%N then
        let '(sgn, s'') :=
          match s' with
          | 43%N :: t => (1, t)
          | 45%N :: t => (-1, t)
          | _ => (1, s')
          end in
        match spanDigits s'' with
        | ((_ :: _) as ds, []) => Some (sgn * digitsValue ds)
        | _ => None
        end
      else None
  end.

(** An unsigned decimal literal other than [Infinity], read as an integer
    [M] and an exponent [E] of ten: digits, an optional point and digits
    (one of the two runs of digits may be empty, not both), an optional
    exponent. *)
Definition unsignedDecimal (s : String) : option (Z * Z) :=
  let '(ip, r1) := spanDigits s in
  match r1 with
  | 46%N :: r2 =>
      let '(fp, r3) := spanDigits r2 in
      match ip, fp with
      | [], [] => None
      | _, _ =>
          match exponentPart r3 with
          | Some e =>
              Some (digitsValue (ip ++ fp), e - Z.of_nat (List.length fp))
          | None => None
          end
      end
  | _ =>
      match ip with
      | [] => None
      | _ =>
          match exponentPart r1 with
          | Some e => Some (digitsValue ip, e)
          | None => None
          end
      end
  end.

(** A binary, octal or hexadecimal integer literal: [0b], [0o] or [0x] in
    either case, then digits of the radix up to the end, at least one. *)
Definition nonDecimal (s : String) : option Z :=
  match s with
  | 48%N :: p :: ds =>
      let R :=
        if ((p =? 120) || (p =? 88))%N then 16
        else if ((p =? 111) || (p =? 79))%N then 8
        else if ((p =? 98) || (p =? 66))%N then 2
        else 0 in
      match ds with
      | [] => None
      | _ =>
          if (0 <? R)
             && (List.length (digitsPrefix R ds) =? List.length ds)%nat
          then Some (mathInt R (digitsPrefix R ds))
          else None
      end
  | _ => None
  end.

(** The Number nearest to [M * 10^E], ties to even, for [M > 0]: the
    integer [M * 10^E] rounded, or the quotient of the integers [M] and
    [10^(-E)] rounded. *)
Definition decimalToNumber (neg : bool) (M : positive) (E : Z) : Number :=
  if 0 <=? E
  then binary_normalize prec emax (cond_Zopp neg (Zpos M * 10 ^ E)) 0 false
  else SF64div (S754_finite neg M 0)
               (S754_finite false (Z.to_pos (10 ^ (- E))) 0).

(** Equality of Strings, code unit by code unit. *)
Fixpoint sameString (s t : String) : bool :=
  match s, t with
  | [], [] => true
  | c :: s', d :: t' => (c =? d)%N && sameString s' t'
  | _, _ => false
  end.

(** ToNumber on a String (StringToNumber): the empty or blank String is 0;
    otherwise the String, trimmed, must be a numeric literal (a binary,
    octal or hexadecimal integer without a sign, or a decimal literal or
    [Infinity] with an optional sign), and is NaN if it is not. *)
Definition StringToNumber (s : String) : Number :=
  match trim s with
  | [] => S754_zero false
  | t =>
      match nonDecimal t with
      | Some n => of_Z n
      | None =>
          let '(neg, u) :=
            match t with
            | 43%N :: u => (false, u)
            | 45%N :: u => (true, u)
            | _ => (false, t)
            end in
          if sameString u (str "Infinity") then S754_infinity neg
          else
            match unsignedDecimal u with
            | Some (Zpos M, E) => decimalToNumber neg M E
            | Some (_, _) => S754_zero neg
            | None => NaN
            end
      end
  end.

End Js.

(** ** The history of predictions ([App], lines 9-12) *)

(** A JSON value, as [JSON.parse] and [response.json()] yield it and as
    [JSON.stringify] writes it: [null], a boolean, a Number, a String, an
    array, or an object with its properties in order. *)
Inductive Json : Type :=
| JNull
| JBool (b : bool)
| JNumber (x : Js.Number)
| JString (s : Js.String)
| JArray (l : list Json)
| JObject (l : list (string * Json)).

(** ToNumber on a JSON value, the conversion that [>=] and [<] apply to an
    operand when the other is a Number.  [null] is 0, [true] is 1, a String
    is read as a numeric literal.  An array or an object is first turned
    into a String: the empty array into the empty String, an array of one
    element into the String of that element (empty for [null]), a longer
    array into a String with a comma, an object into [[object Object]];
    the String of a Number reads back as that Number, the sign of zero
    apart. *)
Fixpoint ToNumber (v : Json) : Js.Number :=
  match v with
  | JNull => S754_zero false
  | JBool b => if b then Js.lit_1 else S754_zero false
  | JNumber x => x
  | JString s => Js.StringToNumber s
  | JArray [] => S754_zero false
  | JArray [w] =>
      match w with
      | JNull => S754_zero false
      | JBool _ => Js.NaN
      | JNumber x =>
          match x with
          | S754_zero _ => S754_zero false
          | _ => x
          end
      | JString s => Js.StringToNumber s
      | JArray _ => ToNumber w
      | JObject _ => Js.NaN
      end
  | JArray (_ :: _ :: _) => Js.NaN
  | JObject _ => Js.NaN
  end.

(** The body of a classifier response, as [response.json()] yields it, by
    the properties that the front end reads.  The front end never checks
    the body: each property may be absent ([None], read back as
    [undefined]; so are all four when the body is not an object) or hold
    any JSON value. *)
Record PredictionData : Type := {
  prediction : option Json;
  confidence : option Json;
  probabilities : option Json;
  details : option Json
}.

(** An element of the history: [{ ...data, type, timestamp }]. *)
Record Prediction : Type := {
  data : PredictionData;
  type : string;
  timestamp : Z
}.

(** [predictionHistory], the state of [App]; [{ spam: [], malware: [] }] at
    start. *)
Module App.

Record PredictionHistory : Type := {
  spam : list Prediction;
  malware : list Prediction
}.

Definition initialHistory : PredictionHistory :=
  {| spam := []; malware := [] |}.

Definition API_URL : string := "http://localhost:8000".

End App.

(** ** The network, as the handlers see it *)

(** The argument of [fetch]: the URL, the method and the object that
    [JSON.stringify] serialises into the body, property by property. *)
Record Request : Type := {
  url : string;
  method : string;
  body : list (string * Json)
}.

(** What [await response.json()] gives: a rejection with its message when
    the body is not JSON, the parsed body otherwise. *)
Inductive Body : Type :=
| Unparseable (message : string)
| Parsed (d : PredictionData).

(** What [await fetch(...)] gives: a rejection with its message (no
    connection), or a response with its [ok] flag (status 200-299) and its
    body. *)
Inductive FetchOutcome : Type :=
| NetworkError (message : string)
| Response (ok : bool) (b : Body).

(** ** [ConfidenceChart] (lines 150-247) *)

Module ConfidenceChart.

Record HistogramBin : Type := { bin : string; count : nat }.

(** [p.confidence] as an operand of [>=] and [<] against a bin edge (line
    181): the value is converted to a Number, [undefined] to NaN. *)
Definition confidenceOf (p : Prediction) : Js.Number :=
  match confidence (data p) with
  | Some v => ToNumber v
  | None => Js.NaN
  end.

(** [{ ...p, type: t }] *)
Definition retype (t : string) (p : Prediction) : Prediction :=
  {| data := data p; type := t; timestamp := timestamp p |}.

(** Lines 158-165: combine both partitions, then filter by type. *)
Definition allPredictions (h : App.PredictionHistory) (filterType : string)
  : list Prediction :=
  let all := List.map (retype "spam") (App.spam h)
             ++ List.map (retype "malware") (App.malware h) in
  if String.eqb filterType "all" then all
  else List.filter (fun p => String.eqb (type p) filterType) all.

(** Line 178 *)
Definition bins : list Js.Number :=
  [Js.lit_0; Js.lit_0_1; Js.lit_0_2; Js.lit_0_3; Js.lit_0_4; Js.lit_0_5;
   Js.lit_0_6; Js.lit_0_7; Js.lit_0_8; Js.lit_0_9; Js.lit_1].

(** [bins[i]]; an index out of range reads [undefined], NaN in a product
    or a comparison. *)
Definition bins_at (i : nat) : Js.Number := nth i bins Js.NaN.

(** [array.map((x, i) => f x i)] *)
Fixpoint mapi_from {A B : Type} (f : A -> nat -> B) (i : nat) (l : list A)
  : list B :=
  match l with
  | [] => []
  | x :: l' => f x i :: mapi_from f (S i) l'
  end.

Definition mapi {A B : Type} (f : A -> nat -> B) (l : list A) : list B :=
  mapi_from f 0%nat l.

(** Lines 180-182: the predicate of the filter of bin [i]. *)
Definition in_bin (b : Js.Number) (i : nat) (p : Prediction) : bool :=
  Js.ge (confidenceOf p) b && Js.lt (confidenceOf p) (bins_at (i + 1)).

(** Line 183: the label of bin [i]. *)
Definition label (b : Js.Number) (i : nat) : string :=
  (Js.toFixed0 (Js.mul b Js.lit_100) ++ "-"
   ++ Js.toFixed0 (Js.mul (bins_at (i + 1)) Js.lit_100) ++ "%")%string.

(** Lines 179-184: [bins.slice(0, -1).map(...)]. *)
Definition histogram (all : list Prediction) : list HistogramBin :=
  mapi (fun b i =>
          {| bin := label b i;
             count := List.length (List.filter (in_bin b i) all) |})
       (removelast bins).

(** The effect of lines 154-247, as far as the histogram goes, once the
    [svg] element is mounted: with no prediction to show the effect returns
    at line 167, before the chart is cleared and before any bin is computed
    ([None]); otherwise the bars of [histogram] are drawn. *)
Definition effect (h : App.PredictionHistory) (filterType : string)
  : option (list HistogramBin) :=
  let all := allPredictions h filterType in
  if Nat.eqb (List.length all) 0 then None else Some (histogram all).

Definition counts (hg : list HistogramBin) : list nat := List.map count hg.

Definition total (hg : list HistogramBin) : nat :=
  List.fold_right Nat.add 0%nat (counts hg).

End ConfidenceChart.


(** ** [AnalyticsDashboard]: the simulated trend (lines 61-90) *)

Module AnalyticsDashboard.

Record TrendPoint : Type := {
  time : string;
  spam : Js.Number;
  malware : Js.Number
}.

(** What one run of the interval callback reads from its environment: the
    clock, printed by [toLocaleTimeString], and the two draws of
    [Math.random()], in the order of lines 79 and 80. *)
Record Tick : Type := {
  now : string;
  random1 : Js.Number;
  random2 : Js.Number
}.

(** [Math.random()] returns a Number in [0, 1). *)
Definition is_random (r : Js.Number) : bool :=
  valid_binary r && Js.ge r Js.lit_0 && Js.lt r Js.lit_1.

(** Lines 77-81 *)
Definition newPoint (t : Tick) : TrendPoint :=
  {| time := now t;
     spam := Js.add (Js.Math_floor (Js.mul (random1 t) Js.lit_20)) Js.lit_5;
     malware :=
       Js.add (Js.Math_floor (Js.mul (random2 t) Js.lit_15)) Js.lit_3 |}.

(** Lines 72-86: the updater given to [setThreatTrends]; [shift] drops
    the first element. *)
Definition tick (t : Tick) (prev : list TrendPoint) : list TrendPoint :=
  let newData := prev ++ [newPoint t] in
  if (20 <? List.length newData)%nat then List.tl newData else newData.

(** [threatTrends] starts empty (line 61). *)
Definition threatTrends0 : list TrendPoint := [].

(** The state after the interval has fired once per element of [ts]. *)
Definition run (ts : list Tick) (s : list TrendPoint) : list TrendPoint :=
  List.fold_left (fun s t => tick t s) ts s.

End AnalyticsDashboard.

(** ** [SpamDetector] (lines 460-578) *)

Module SpamDetector.

Record State : Type := {
  emailText : Js.String;
  result : option PredictionData;
  loading : bool;
  error : option string
}.

Definition initial : State :=
  {| emailText := []; result := None; loading := false; error := None |}.

(** Line 522 *)
Definition setEmailText (v : Js.String) (st : State) : State :=
  {| emailText := v; result := result st; loading := loading st;
     error := error st |}.

(** Lines 466-479: the part of [handleSubmit] that runs before the first
    [await]; it issues the request. *)
Definition handleSubmit_start (st : State) : State * Request :=
  ({| emailText := emailText st; result := None; loading := true;
      error := None |},
   {| url := (App.API_URL ++ "/predict/spam")%string;
      method := "POST";
      body := [("email_text", JString (emailText st))] |}).

Definition withError (msg : string) (st : State) : State :=
  {| emailText := emailText st; result := result st; loading := false;
     error := Some msg |}.

(** Lines 481-497: the rest of [handleSubmit], once the request has
    settled; [date] is the value of [new Date()]. *)
Definition handleSubmit_settle (o : FetchOutcome) (date : Z)
    (st : State) (h : App.PredictionHistory)
  : State * App.PredictionHistory :=
  match o with
  | NetworkError msg => (withError msg st, h)
  | Response false _ => (withError "Prediction failed" st, h)
  | Response true (Unparseable msg) => (withError msg st, h)
  | Response true (Parsed d) =>
      ({| emailText := emailText st; result := Some d; loading := false;
          error := error st |},
       {| App.spam := App.spam h
                      ++ [{| data := d; type := "spam";
                             timestamp := date |}];
          App.malware := App.malware h |})
  end.

(** Line 529: the [disabled] attribute of the submit button. *)
Definition submitDisabled (st : State) : bool :=
  loading st || (List.length (emailText st) <? 10)%nat.

(** A click on the submit button: a disabled button submits nothing, an
    enabled one runs [handleSubmit]. *)
Definition clickSubmit (st : State) : State * option Request :=
  if submitDisabled st then (st, None)
  else let '(st', r) := handleSubmit_start st in (st', Some r).

(** One whole submission with its outcome. *)
Definition handleSubmit (o : FetchOutcome) (date : Z)
    (st : State) (h : App.PredictionHistory)
  : State * App.PredictionHistory :=
  handleSubmit_settle o date (fst (handleSubmit_start st)) h.

End SpamDetector.

(** ** [MalwareDetector] (lines 584-788) *)

Module MalwareDetector.

(** An object with Number properties, in the order of its keys. *)
Definition FormData : Type := list (string * Js.Number).

(** Lines 585-619: the initial [formData]. *)
Definition formData0 : FormData :=
  [ ("millisecond", Js.of_Z 0);
    ("state", Js.of_Z 0);
    ("usage_counter", Js.of_Z 0);
    ("prio", Js.of_Z 3069378560);
    ("static_prio", Js.of_Z 14274);
    ("normal_prio", Js.of_Z 0);
    ("policy", Js.of_Z 0);
    ("vm_pgoff", Js.of_Z 0);
    ("vm_truncate_count", Js.of_Z 15000);
    ("task_size", Js.of_Z 0);
    ("cached_hole_size", Js.of_Z 0);
    ("free_area_cache", Js.of_Z 0);
    ("mm_users", Js.of_Z 0);
    ("map_count", Js.of_Z 0);
    ("hiwater_rss", Js.of_Z 0);
    ("total_vm", Js.of_Z 0);
    ("shared_vm", Js.of_Z 0);
    ("exec_vm", Js.of_Z 0);
    ("reserved_vm", Js.of_Z 0);
    ("nr_ptes", Js.of_Z 0);
    ("end_data", Js.of_Z 0);
    ("last_interval", Js.of_Z 0);
    ("nvcsw", Js.of_Z 0);
    ("nivcsw", Js.of_Z 0);
    ("min_flt", Js.of_Z 0);
    ("maj_flt", Js.of_Z 120);
    ("fs_excl_counter", Js.of_Z 0);
    ("lock", Js.of_Z 3204448256);
    ("utime", Js.of_Z 380000);
    ("stime", Js.of_Z 4);
    ("gtime", Js.of_Z 0);
    ("cgtime", Js.of_Z 0);
    ("signal_nvcsw", Js.of_Z 0) ].

(** [Object.keys] *)
Definition keys (o : FormData) : list string := List.map fst o.

(** [o[k]] *)
Fixpoint get (o : FormData) (k : string) : option Js.Number :=
  match o with
  | [] => None
  | (k', v) :: o' => if String.eqb k' k then Some v else get o' k
  end.

(** [{ ...o, [k]: v }]: a key that [o] has keeps its place, a new key
    goes last (the keys of this program are not array indices). *)
Fixpoint set (o : FormData) (k : string) (v : Js.Number) : FormData :=
  match o with
  | [] => [(k, v)]
  | (k', v') :: o' =>
      if String.eqb k' k then (k', v) :: o' else (k', v') :: set o' k v
  end.

(** Lines 625-631: [e.target] carries [name] and [value]. *)
Definition handleChange (name : string) (value : Js.String)
    (prev : FormData) : FormData :=
  set prev name (Js.or_else (Js.parseInt value) Js.lit_0).

(** Lines 667-685 *)
Definition loadExample (type : string) (formData : FormData) : FormData :=
  if String.eqb type "malware" then
    set (set (set (set formData "static_prio" (Js.of_Z 25000))
                  "utime" (Js.of_Z 410000))
             "free_area_cache" (Js.of_Z 50000))
        "nvcsw" (Js.of_Z 100)
  else
    set (set (set (set formData "static_prio" (Js.of_Z 14000))
                  "utime" (Js.of_Z 370000))
             "free_area_cache" (Js.of_Z 10000))
        "nvcsw" (Js.of_Z 5).

(** Line 687 *)
Definition importantFields : list string :=
  ["static_prio"; "utime"; "free_area_cache"; "nvcsw"; "shared_vm";
   "vm_truncate_count"].

Definition includes (l : list string) (k : string) : bool :=
  List.existsb (String.eqb k) l.

(** Lines 707-736: the [name] of every input of the form, the important
    fields first, then the other keys of [formData]. *)
Definition inputNames (formData : FormData) : list string :=
  importantFields
  ++ List.filter (fun k => negb (includes importantFields k))
                 (keys formData).

(** The events that change [formData]: a change of one of the inputs of
    the form, or one of the two example buttons. *)
Inductive reachable : FormData -> Prop :=
| reach_initial : reachable formData0
| reach_change : forall fd name value,
    reachable fd -> In name (inputNames fd) ->
    reachable (handleChange name value fd)
| reach_example : forall fd type,
    reachable fd -> reachable (loadExample type fd).

(** [JSON.stringify] on a Number: NaN and the infinities are written
    [null]. *)
Definition jsonOfNumber (x : Js.Number) : Json :=
  if Js.is_finite x then JNumber x else JNull.

Record State : Type := {
  formData : FormData;
  result : option PredictionData;
  loading : bool;
  error : option string
}.

Definition initial : State :=
  {| formData := formData0; result := None; loading := false;
     error := None |}.

(** Lines 633-646: [handleSubmit] up to the first [await]. *)
Definition handleSubmit_start (st : State) : State * Request :=
  ({| formData := formData st; result := None; loading := true;
      error := None |},
   {| url := (App.API_URL ++ "/predict/malware")%string;
      method := "POST";
      body := List.map (fun kv => (fst kv, jsonOfNumber (snd kv)))
                       (formData st) |}).

Definition withError (msg : string) (st : State) : State :=
  {| formData := formData st; result := result st; loading := false;
     error := Some msg |}.

(** Lines 648-664 *)
Definition handleSubmit_settle (o : FetchOutcome) (date : Z)
    (st : State) (h : App.PredictionHistory)
  : State * App.PredictionHistory :=
  match o with
  | NetworkError msg => (withError msg st, h)
  | Response false _ => (withError "Prediction failed" st, h)
  | Response true (Unparseable msg) => (withError msg st, h)
  | Response true (Parsed d) =>
      ({| formData := formData st; result := Some d; loading := false;
          error := error st |},
       {| App.spam := App.spam h;
          App.malware := App.malware h
                         ++ [{| data := d; type := "malware";
                                timestamp := date |}] |})
  end.

Definition handleSubmit (o : FetchOutcome) (date : Z)
    (st : State) (h : App.PredictionHistory)
  : State * App.PredictionHistory :=
  handleSubmit_settle o date (fst (handleSubmit_start st)) h.

End MalwareDetector.


(** ** [calculateDetectionRate] (lines 447-454) *)

(** [p.prediction === s]: strict equality with a String holds of that
    String only. *)
Definition predictionIs (p : Prediction) (s : string) : bool :=
  match prediction (data p) with
  | Some (JString t) => Js.sameString t (Js.str s)
  | _ => false
  end.

(** The filter of lines 449-452: a spam entry predicted spam, or a malware
    entry predicted malware. *)
Definition isDetected (p : Prediction) : bool :=
  (String.eqb (type p) "spam" && predictionIs p "spam")
  || (String.eqb (type p) "malware" && predictionIs p "malware").

Definition calculateDetectionRate (predictions : list Prediction) : string :=
  if Nat.eqb (List.length predictions) 0 then "0%"
  else
    let detected := List.length (List.filter isDetected predictions) in
    (Js.toFixed 1
       (Js.mul (Js.div (Js.of_Z (Z.of_nat detected))
                       (Js.of_Z (Z.of_nat (List.length predictions))))
               Js.lit_100)
     ++ "%")%string.

(** ** Vocabulary of the properties *)

Definition b2n (b : bool) : nat := if b then 1%nat else 0%nat.

Definition sum (l : list nat) : nat := List.fold_right Nat.add 0%nat l.

(** A Number [c] in [0, 1): [c >= 0] and [c < 1]. *)
Definition in_unit (c : Js.Number) : bool :=
  Js.ge c Js.lit_0 && Js.lt c Js.lit_1.

(** The ten filters of [ConfidenceChart.histogram], in the order of the
    bins. *)
Definition binFilters : list (Prediction -> bool) :=
  List.map (fun i => ConfidenceChart.in_bin (ConfidenceChart.bins_at i) i)
           (List.seq 0 10).

(** The number of bins that count [p]. *)
Definition hits (p : Prediction) : nat :=
  sum (List.map (fun f => b2n (f p)) binFilters).

(** The histogram sums to the size of the snapshot of [h] under
    [filterType]. *)
Definition histogram_sums_to_length
    (h : App.PredictionHistory) (filterType : string) : Prop :=
  exists hg,
    ConfidenceChart.effect h filterType = Some hg
    /\ List.length hg = 10%nat
    /\ ConfidenceChart.total hg
       = List.length (ConfidenceChart.allPredictions h filterType).

(** The response contract of the two classifiers, in the words of the
    specification (the front end has no such check): both class names of
    the kind are keys of [probabilities], and [confidence] is a Number in
    [0, 1]. *)
Definition classNames (kind : string) : list string :=
  if String.eqb kind "spam" then ["ham"; "spam"] else ["benign"; "malware"].

Definition in_contract (kind : string) (d : PredictionData) : bool :=
  match probabilities d with
  | Some (JObject kvs) =>
      List.forallb
        (fun k => List.existsb (String.eqb k) (List.map fst kvs))
        (classNames kind)
  | _ => false
  end
  && match confidence d with
     | Some (JNumber c) => Js.ge c Js.lit_0 && Js.ge Js.lit_1 c
     | _ => false
     end.

(** A failed attempt, in the words of the specification: a transport
    failure, a status that is not a success, or a malformed body, which is
    a body that is not JSON or one that is out of contract. *)
Definition failed_attempt (kind : string) (o : FetchOutcome) : bool :=
  match o with
  | NetworkError _ => true
  | Response false _ => true
  | Response true (Unparseable _) => true
  | Response true (Parsed d) => negb (in_contract kind d)
  end.

(** The error that [handleSubmit] catches (lines 472-495 and 639-662), with
    its message: [fetch] rejects, [response.ok] is false and line 482 or 649
    throws, or [response.json()] rejects.  A body that parses throws
    nothing. *)
Definition caught (o : FetchOutcome) : option string :=
  match o with
  | NetworkError msg => Some msg
  | Response false _ => Some "Prediction failed"
  | Response true (Unparseable msg) => Some msg
  | Response true (Parsed _) => None
  end.

(** *** Sample data *)

Definition lit_1_5 : Js.Number := S754_finite false 6755399441055744 (-52).

(** [{"prediction":"spam","confidence":c,"probabilities":{"ham":1-c,...}}] *)
Definition spamBody (c ham sp : Js.Number) : PredictionData :=
  {| prediction := Some (JString (Js.str "spam"));
     confidence := Some (JNumber c);
     probabilities := Some (JObject [("ham", JNumber ham);
                                     ("spam", JNumber sp)]);
     details := Some (JObject
                        [("email_length", JNumber (Js.of_Z 40));
                         ("word_count", JNumber (Js.of_Z 7));
                         ("model", JString (Js.str "RandomForest"))]) |}.

(** [{"prediction":"malware","confidence":1.5,"probabilities":{...}}]: a
    body of the malware classifier that is out of contract. *)
Definition malwareBody_1_5 : PredictionData :=
  {| prediction := Some (JString (Js.str "malware"));
     confidence := Some (JNumber lit_1_5);
     probabilities := Some (JObject [("benign", JNumber Js.lit_0);
                                     ("malware", JNumber lit_1_5)]);
     details := Some (JObject
                        [("feature_count", JNumber (Js.of_Z 33));
                         ("model", JString (Js.str "RandomForest"))]) |}.

(** A body whose [confidence] is the JSON value [v], and nothing else. *)
Definition bodyOfConfidence (v : Json) : PredictionData :=
  {| prediction := None; confidence := Some v;
     probabilities := None; details := None |}.

(** The out-of-contract body with confidence 1.5. *)
Definition body_1_5 : PredictionData := spamBody lit_1_5 Js.lit_0 lit_1_5.

(** A body with confidence exactly 1.0. *)
Definition body_1 : PredictionData := spamBody Js.lit_1 Js.lit_0 Js.lit_1.

(** A body with confidence 0.3. *)
Definition body_0_3 : PredictionData :=
  spamBody Js.lit_0_3 Js.lit_0_7 Js.lit_0_3.

Definition spamEntry (d : PredictionData) : Prediction :=
  {| data := d; type := "spam"; timestamp := 0 |}.

Definition historyOf (l : list PredictionData) : App.PredictionHistory :=
  {| App.spam := List.map spamEntry l; App.malware := [] |}.

(** A [SpamDetector] whose text area holds a text long enough to submit. *)
Definition spam_state_ready : SpamDetector.State :=
  SpamDetector.setEmailText
    (Js.str "You have won a prize, click here to claim it")
    SpamDetector.initial.

(** 25 ticks, numbered by their clock. *)
Definition tick_n (n : nat) : AnalyticsDashboard.Tick :=
  {| AnalyticsDashboard.now :=
       NilZero.string_of_uint (Nat.to_uint n);
     AnalyticsDashboard.random1 := Js.lit_0_5;
     AnalyticsDashboard.random2 := Js.lit_0_9 |}.

Definition ticks_25 : list AnalyticsDashboard.Tick :=
  List.map tick_n (List.seq 1 25).

(** The malware form after the malware-like example was loaded and [prio]
    was typed over. *)
Definition form_state_edited : MalwareDetector.State :=
  {| MalwareDetector.formData :=
       MalwareDetector.handleChange "prio" (Js.str "120")
         (MalwareDetector.loadExample "malware" MalwareDetector.formData0);
     MalwareDetector.result := None;
     MalwareDetector.loading := false;
     MalwareDetector.error := None |}.

(** The value that [handleChange] stores for the text [value] of an
    input. *)
Definition storedValue (value : Js.String) : Js.Number :=
  Js.or_else (Js.parseInt value) Js.lit_0.

(** The integer that a Number denotes, when it is an integer. *)
Definition integerOf (x : Js.Number) : option Z :=
  match x with
  | S754_zero _ => Some 0
  | S754_finite s m e =>
      if 0 <=? e then Some (cond_Zopp s (Zpos m * 2 ^ e))
      else if Zpos m mod 2 ^ (- e) =? 0
           then Some (cond_Zopp s (Zpos m / 2 ^ (- e)))
           else None
  | _ => None
  end.

(** The code units of the decimal digits, and the integer that a text made
    of them denotes. *)
Definition isDecimalDigit (c : N) : Prop := (48 <= c <= 57)%N.

Definition decimalValue (ds : Js.String) : Z :=
  Js.mathInt 10 (List.map (fun c => Z.of_N c - 48) ds).

(** A 1 followed by 309 zeros, as typed in an input. *)
Definition text_1e309 : Js.String := 49%N :: List.repeat 48%N 309.

(** *** Sessions *)

(** One run of a submit handler: which detector, what came back, when. *)
Inductive Submission : Type :=
| SpamSubmission (o : FetchOutcome) (date : Z)
| MalwareSubmission (o : FetchOutcome) (date : Z).

(** The state of the page: both detectors and the history of [App]. *)
Record Session : Type := {
  spamUi : SpamDetector.State;
  malwareUi : MalwareDetector.State;
  history : App.PredictionHistory
}.

Definition submit (s : Submission) (w : Session) : Session :=
  match s with
  | SpamSubmission o date =>
      let '(st, h) := SpamDetector.handleSubmit o date (spamUi w) (history w) in
      {| spamUi := st; malwareUi := malwareUi w; history := h |}
  | MalwareSubmission o date =>
      let '(st, h) :=
        MalwareDetector.handleSubmit o date (malwareUi w) (history w) in
      {| spamUi := spamUi w; malwareUi := st; history := h |}
  end.

Definition submitAll (l : list Submission) (w : Session) : Session :=
  List.fold_left (fun w s => submit s w) l w.

(** The entries that a list of submissions should leave in each partition:
    one per success response with a JSON body, in order. *)
Definition spamLog (l : list Submission) : list Prediction :=
  List.flat_map
    (fun s => match s with
              | SpamSubmission (Response true (Parsed d)) date =>
                  [{| data := d; type := "spam"; timestamp := date |}]
              | _ => []
              end) l.

Definition malwareLog (l : list Submission) : list Prediction :=
  List.flat_map
    (fun s => match s with
              | MalwareSubmission (Response true (Parsed d)) date =>
                  [{| data := d; type := "malware"; timestamp := date |}]
              | _ => []
              end) l.

(** Bin by bin, the sum of two lists of counts. *)
Definition addCounts (l1 l2 : list nat) : list nat :=
  List.map (fun ab => (fst ab + snd ab)%nat) (List.combine l1 l2).

(** A Number field of the form holds an integer or an infinity. *)
Definition integerOrInfinite (x : Js.Number) : Prop :=
  Js.isInteger x = true \/ exists s, x = S754_infinity s.

(** The fields that the example buttons set. *)
Definition exampleFields : list string :=
  ["static_prio"; "utime"; "free_area_cache"; "nvcsw"].

(** What may follow the digits that parseInt reads: nothing, or a code unit
    that is neither a decimal digit nor the [x] of a hexadecimal prefix. *)
Definition stopsDigits (tail : Js.String) : Prop :=
  match tail with
  | [] => True
  | c :: _ => ~ isDecimalDigit c /\ c <> 120%N /\ c <> 88%N
  end.

(** A draw of [Math.random()] for which the floor of the product by [C] is
    [j]: the Number nearest to [(2j + 1) / 2C]. *)
Definition drawFor (C j : Z) : Js.Number :=
  Js.div (Js.of_Z (2 * j + 1)) (Js.of_Z (2 * C)).

(** 100 [spam] results, no [malware] result. *)
Definition history_100_spam : App.PredictionHistory :=
  historyOf (List.repeat body_0_3 100).

(* ===================================================================== *)
(** * Part II: properties                                                 *)
(* ===================================================================== *)

(** ** The literals *)

(** The binary64 values written out in [Js] are the ones that the decimal
    literals of the source denote. *)
Lemma literals_are_binary64 :
  Prim2SF 0.1%float = Js.lit_0_1 /\ Prim2SF 0.2%float = Js.lit_0_2 /\
  Prim2SF 0.3%float = Js.lit_0_3 /\ Prim2SF 0.4%float = Js.lit_0_4 /\
  Prim2SF 0.5%float = Js.lit_0_5 /\ Prim2SF 0.6%float = Js.lit_0_6 /\
  Prim2SF 0.7%float = Js.lit_0_7 /\ Prim2SF 0.8%float = Js.lit_0_8 /\
  Prim2SF 0.9%float = Js.lit_0_9 /\ Prim2SF 1.0%float = Js.lit_1 /\
  Prim2SF 3%float = Js.lit_3 /\ Prim2SF 5%float = Js.lit_5 /\
  Prim2SF 15%float = Js.lit_15 /\ Prim2SF 20%float = Js.lit_20 /\
  Prim2SF 100%float = Js.lit_100 /\ Prim2SF 0%float = Js.lit_0.
Proof. repeat split; vm_compute; reflexivity. Qed.

(** [Js.StringToNumber] reads decimal text as the same binary64 values:
    fractions, exponents, subnormal numbers, overflow, long mantissas. *)
Lemma StringToNumber_literals :
  Js.StringToNumber (Js.str "0.55") = Prim2SF 0.55%float
  /\ Js.StringToNumber (Js.str "0.3") = Js.lit_0_3
  /\ Js.StringToNumber (Js.str " 1.5 ") = lit_1_5
  /\ Js.StringToNumber (Js.str "1.0") = Js.lit_1
  /\ Js.StringToNumber (Js.str "1e-5") = Prim2SF 1e-5%float
  /\ Js.StringToNumber (Js.str "-2.5E-3") = Prim2SF (-2.5e-3)%float
  /\ Js.StringToNumber (Js.str ".5") = Js.lit_0_5
  /\ Js.StringToNumber (Js.str "5e-324") = Prim2SF 5e-324%float
  /\ Js.StringToNumber (Js.str "1.7976931348623157e308")
     = Prim2SF 1.7976931348623157e308%float
  /\ Js.StringToNumber (Js.str "1e309") = Js.Infinity
  /\ Js.StringToNumber (Js.str "9007199254740993")
     = Prim2SF 9007199254740993%float
  /\ Js.StringToNumber (Js.str "0.30000000000000004")
     = Prim2SF 0.30000000000000004%float
  /\ Js.StringToNumber (Js.str "0x1A") = Js.of_Z 26
  /\ Js.StringToNumber (Js.str "-Infinity") = S754_infinity true
  /\ Js.StringToNumber (Js.str "") = Js.lit_0
  /\ Js.StringToNumber (Js.str "-0") = S754_zero true.
Proof. repeat split; vm_compute; reflexivity. Qed.

(** What is not a numeric literal reads as NaN. *)
Lemma StringToNumber_NaN :
  List.forallb
    (fun t => match Js.StringToNumber (Js.str t) with
              | S754_nan => true
              | _ => false
              end)
    ["high"; "0.5%"; "1,5"; "1e"; "."; "e5"; "0x"; "-0x10"; "1 2";
     "infinity"; "NaN"; "true"; "1_000"; "++1"; "[object Object]"]
  = true.
Proof. vm_compute. reflexivity. Qed.

(** ** The order of Numbers *)

Section NumberOrder.

Lemma SFcompare_fin_pos m e m' e' :
  SFcompare (S754_finite false m e) (S754_finite false m' e')
  = Some (match e ?= e' with
          | Eq => (m ?= m')%positive
          | c => c
          end).
Proof.
  unfold SFcompare. rewrite Pos.compare_cont_spec.
  destruct (e ?= e'); try reflexivity.
  destruct (m ?= m')%positive; reflexivity.
Qed.

(** [a <= b] between positive finite Numbers is the lexicographic order on
    exponent and mantissa. *)
Lemma SFleb_fin_pos m e m' e' :
  SFleb (S754_finite false m e) (S754_finite false m' e') = true
  <-> e < e' \/ (e = e' /\ Zpos m <= Zpos m').
Proof.
  unfold SFleb. rewrite SFcompare_fin_pos.
  destruct (Z.compare_spec e e') as [He | He | He];
    destruct (Pos.compare_spec m m') as [Hm | Hm | Hm];
    split; intros H; try reflexivity; try discriminate; lia.
Qed.

Lemma SFltb_fin_pos m e m' e' :
  SFltb (S754_finite false m e) (S754_finite false m' e') = true
  <-> e < e' \/ (e = e' /\ Zpos m < Zpos m').
Proof.
  unfold SFltb. rewrite SFcompare_fin_pos.
  destruct (Z.compare_spec e e') as [He | He | He];
    destruct (Pos.compare_spec m m') as [Hm | Hm | Hm];
    split; intros H; try reflexivity; try discriminate; lia.
Qed.

(** Against a positive finite bound [b], [c < b] is the negation of
    [c >= b] as soon as [c] is a number. *)
Lemma lt_is_not_ge (c : Js.Number) m e :
  c <> Js.NaN ->
  Js.lt c (S754_finite false m e) = negb (Js.ge c (S754_finite false m e)).
Proof.
  intros Hc. unfold Js.NaN in Hc. unfold Js.lt, Js.ge, SFltb, SFleb.
  destruct c as [s | s | | s m' e']; try congruence;
    try (destruct s; reflexivity).
  destruct s; [reflexivity |].
  rewrite !SFcompare_fin_pos.
  rewrite (Z.compare_antisym e' e), (Pos.compare_antisym m' m).
  destruct (e' ?= e); simpl; try reflexivity.
  destruct (m' ?= m)%positive; reflexivity.
Qed.

(** [c >= b'] gives [c >= b] for every positive finite [b <= b']. *)
Lemma ge_lower (c : Js.Number) m e m' e' :
  SFleb (S754_finite false m e) (S754_finite false m' e') = true ->
  Js.ge c (S754_finite false m' e') = true ->
  Js.ge c (S754_finite false m e) = true.
Proof.
  unfold Js.ge. intros Hb Hc.
  destruct c as [s | s | | s mc ec]; try (destruct s); try discriminate;
    try reflexivity.
  apply SFleb_fin_pos in Hb. apply SFleb_fin_pos in Hc.
  apply SFleb_fin_pos. lia.
Qed.

End NumberOrder.

(** ** The histogram of [ConfidenceChart] *)

Section Histogram.

Import ConfidenceChart.

Lemma counts_histogram (all : list Prediction) :
  counts (histogram all)
  = List.map (fun f => List.length (List.filter f all)) binFilters.
Proof. reflexivity. Qed.

Lemma length_histogram (all : list Prediction) :
  List.length (histogram all) = 10%nat.
Proof. reflexivity. Qed.

Lemma sum_filter_cons {A : Type} (fs : list (A -> bool)) (x : A) l :
  sum (List.map (fun f => List.length (List.filter f (x :: l))) fs)
  = (sum (List.map (fun f => b2n (f x)) fs)
     + sum (List.map (fun f => List.length (List.filter f l)) fs))%nat.
Proof.
  induction fs as [| f fs IH]; [reflexivity |].
  unfold sum in *. cbn [List.map List.fold_right]. rewrite IH.
  cbn [List.filter]. destruct (f x); cbn [b2n List.length]; lia.
Qed.

Lemma total_histogram_cons (p : Prediction) all :
  total (histogram (p :: all)) = (hits p + total (histogram all))%nat.
Proof.
  unfold total. rewrite !counts_histogram. apply sum_filter_cons.
Qed.

(** A confidence in [0, 1) is counted by exactly one bin. *)
Lemma hits_in_unit (p : Prediction) :
  in_unit (confidenceOf p) = true -> hits p = 1%nat.
Proof.
  unfold in_unit. intros H. apply andb_true_iff in H. destruct H as [H0 H1].
  set (c := confidenceOf p) in *.
  assert (Hc : c <> Js.NaN).
  { intros E. rewrite E in H1. discriminate H1. }
  change (hits p) with
    (b2n (Js.ge c Js.lit_0 && Js.lt c Js.lit_0_1)
     + (b2n (Js.ge c Js.lit_0_1 && Js.lt c Js.lit_0_2)
     + (b2n (Js.ge c Js.lit_0_2 && Js.lt c Js.lit_0_3)
     + (b2n (Js.ge c Js.lit_0_3 && Js.lt c Js.lit_0_4)
     + (b2n (Js.ge c Js.lit_0_4 && Js.lt c Js.lit_0_5)
     + (b2n (Js.ge c Js.lit_0_5 && Js.lt c Js.lit_0_6)
     + (b2n (Js.ge c Js.lit_0_6 && Js.lt c Js.lit_0_7)
     + (b2n (Js.ge c Js.lit_0_7 && Js.lt c Js.lit_0_8)
     + (b2n (Js.ge c Js.lit_0_8 && Js.lt c Js.lit_0_9)
     + (b2n (Js.ge c Js.lit_0_9 && Js.lt c Js.lit_1) + 0))))))))))%nat.
  unfold Js.lit_0_1, Js.lit_0_2, Js.lit_0_3, Js.lit_0_4, Js.lit_0_5,
    Js.lit_0_6, Js.lit_0_7, Js.lit_0_8, Js.lit_0_9, Js.lit_1 in *.
  rewrite !(lt_is_not_ge c) in * by exact Hc.
  assert (M1 := ge_lower c 7205759403792794 (-56) 7205759403792794 (-55) eq_refl).
  assert (M2 := ge_lower c 7205759403792794 (-55) 5404319552844595 (-54) eq_refl).
  assert (M3 := ge_lower c 5404319552844595 (-54) 7205759403792794 (-54) eq_refl).
  assert (M4 := ge_lower c 7205759403792794 (-54) 4503599627370496 (-53) eq_refl).
  assert (M5 := ge_lower c 4503599627370496 (-53) 5404319552844595 (-53) eq_refl).
  assert (M6 := ge_lower c 5404319552844595 (-53) 6305039478318694 (-53) eq_refl).
  assert (M7 := ge_lower c 6305039478318694 (-53) 7205759403792794 (-53) eq_refl).
  assert (M8 := ge_lower c 7205759403792794 (-53) 8106479329266893 (-53) eq_refl).
  rewrite H0.
  destruct (Js.ge c (S754_finite false 4503599627370496 (-52)));
    [discriminate H1 | clear H1].
  destruct (Js.ge c (S754_finite false 8106479329266893 (-53)));
  destruct (Js.ge c (S754_finite false 7205759403792794 (-53)));
  destruct (Js.ge c (S754_finite false 6305039478318694 (-53)));
  destruct (Js.ge c (S754_finite false 5404319552844595 (-53)));
  destruct (Js.ge c (S754_finite false 4503599627370496 (-53)));
  destruct (Js.ge c (S754_finite false 7205759403792794 (-54)));
  destruct (Js.ge c (S754_finite false 5404319552844595 (-54)));
  destruct (Js.ge c (S754_finite false 7205759403792794 (-55)));
  destruct (Js.ge c (S754_finite false 7205759403792794 (-56)));
  first [ reflexivity
        | discriminate (M1 eq_refl) | discriminate (M2 eq_refl)
        | discriminate (M3 eq_refl) | discriminate (M4 eq_refl)
        | discriminate (M5 eq_refl) | discriminate (M6 eq_refl)
        | discriminate (M7 eq_refl) | discriminate (M8 eq_refl) ].
Qed.

(** The bins of a list of confidences in [0, 1) sum to its length. *)
Lemma total_histogram_in_unit (all : list Prediction) :
  (forall p, In p all -> in_unit (confidenceOf p) = true) ->
  total (histogram all) = List.length all.
Proof.
  induction all as [| p all IH]; intros H; [reflexivity |].
  rewrite total_histogram_cons, hits_in_unit, IH.
  - reflexivity.
  - intros q Hq. apply H. right. exact Hq.
  - apply H. left. reflexivity.
Qed.


(** With no [malware] result, the snapshot filtered to [malware] is
    empty, whatever the [spam] partition holds. *)
Lemma allPredictions_no_malware (h : App.PredictionHistory) :
  App.malware h = [] -> allPredictions h "malware" = [].
Proof.
  intros E. unfold allPredictions. rewrite E. cbn [List.map String.eqb].
  rewrite app_nil_r. simpl.
  induction (App.spam h) as [| p l IH]; [reflexivity |].
  cbn [List.map List.filter retype type]. exact IH.
Qed.

(** C1, as amended: for every snapshot that is not empty and whose
    results all have a confidence [c] with [0 <= c < 1], the chart gets a
    histogram of 10 bins whose counts sum to the number of results of the
    snapshot. *)
Theorem C1_histogram_total
    (h : App.PredictionHistory) (filterType : string) :
  allPredictions h filterType <> [] ->
  (forall p, In p (allPredictions h filterType) ->
             in_unit (confidenceOf p) = true) ->
  histogram_sums_to_length h filterType.
Proof.
  intros Hne Hall. unfold histogram_sums_to_length, effect.
  exists (histogram (allPredictions h filterType)).
  destruct (allPredictions h filterType) as [| p l] eqn:E;
    [congruence |].
  cbn [List.length Nat.eqb]. split; [reflexivity |].
  split; [apply length_histogram |].
  apply (total_histogram_in_unit (p :: l)). exact Hall.
Qed.

Lemma C1_histogram_total_witness :
  allPredictions (historyOf [body_0_3; body_0_3]) "spam" <> []
  /\ histogram_sums_to_length (historyOf [body_0_3; body_0_3]) "spam".
Proof.
  split; [discriminate |].
  apply C1_histogram_total; [discriminate |].
  intros p [E | [E | []]]; rewrite <- E; reflexivity.
Defined.

(** C1, as stated, fails on the empty snapshot, for which the chart gets
    no histogram at all, and on a snapshot that holds the accepted
    response of confidence 1.5, which no bin counts. *)
Lemma C1_counterexample :
  ~ histogram_sums_to_length App.initialHistory "all"
  /\ ~ histogram_sums_to_length (historyOf [body_1_5]) "all".
Proof.
  split; intros [hg [E [_ T]]]; vm_compute in E.
  - discriminate E.
  - injection E as E. subst hg. vm_compute in T. discriminate T.
Qed.

(** C2 at a confidence of exactly 1.0: the chart has its 10 bins, the
    last one labelled 90-100%, and the result is counted in none of them;
    a confidence of 0.3 is counted in the bin 30-40%. *)
Theorem C2_confidence_one_not_counted :
  effect (historyOf [body_1]) "all"
  = Some [ {| bin := "0-10%"; count := 0 |};
           {| bin := "10-20%"; count := 0 |};
           {| bin := "20-30%"; count := 0 |};
           {| bin := "30-40%"; count := 0 |};
           {| bin := "40-50%"; count := 0 |};
           {| bin := "50-60%"; count := 0 |};
           {| bin := "60-70%"; count := 0 |};
           {| bin := "70-80%"; count := 0 |};
           {| bin := "80-90%"; count := 0 |};
           {| bin := "90-100%"; count := 0 |} ]
  /\ effect (historyOf [body_0_3]) "all"
     = Some [ {| bin := "0-10%"; count := 0 |};
              {| bin := "10-20%"; count := 0 |};
              {| bin := "20-30%"; count := 0 |};
              {| bin := "30-40%"; count := 1 |};
              {| bin := "40-50%"; count := 0 |};
              {| bin := "50-60%"; count := 0 |};
              {| bin := "60-70%"; count := 0 |};
              {| bin := "70-80%"; count := 0 |};
              {| bin := "80-90%"; count := 0 |};
              {| bin := "90-100%"; count := 0 |} ].
Proof. split; vm_compute; reflexivity. Qed.

(** C4, as amended: for an empty snapshot, and so for the snapshot
    filtered to [malware] when no [malware] result was appended, the
    effect returns before it computes a histogram and the chart gets none;
    the binning of lines 179-184, had it run on the empty list, would
    give 10 bins of count zero. *)
Theorem C4_empty_snapshot_no_histogram
    (h : App.PredictionHistory) (filterType : string) :
  (allPredictions h filterType = [] -> effect h filterType = None)
  /\ (App.malware h = [] -> effect h "malware" = None)
  /\ counts (histogram []) = List.repeat 0%nat 10.
Proof.
  split; [| split].
  - intros E. unfold effect. rewrite E. reflexivity.
  - intros E. unfold effect. rewrite (allPredictions_no_malware h E).
    reflexivity.
  - reflexivity.
Qed.

Lemma C4_empty_snapshot_no_histogram_witness :
  App.malware history_100_spam = []
  /\ effect history_100_spam "malware" = None.
Proof.
  split; [reflexivity |].
  apply (C4_empty_snapshot_no_histogram history_100_spam "malware").
  reflexivity.
Defined.

(** C4, as stated, fails after 100 [spam] results and no [malware]
    result: the chart filtered to [malware] gets no histogram, so no 10
    bins of count zero. *)
Lemma C4_counterexample :
  ~ (exists hg, effect history_100_spam "malware" = Some hg
                /\ counts hg = List.repeat 0%nat 10).
Proof. intros [hg [E _]]. vm_compute in E. discriminate E. Qed.

End Histogram.

(** ** The submit handlers *)

Section Handlers.

(** C3, as amended: a response with a success status and a JSON body is
    never rejected, in contract or not (a confidence of 1.5, a missing class
    name): no error is set, the body becomes the result, and it is appended
    to its partition of the history with its type and the date. *)
Theorem C3_response_body_not_checked
    (d : PredictionData) (date : Z) (h : App.PredictionHistory)
    (sst : SpamDetector.State) (mst : MalwareDetector.State) :
  SpamDetector.handleSubmit (Response true (Parsed d)) date sst h
  = ({| SpamDetector.emailText := SpamDetector.emailText sst;
        SpamDetector.result := Some d;
        SpamDetector.loading := false;
        SpamDetector.error := None |},
     {| App.spam := App.spam h
                    ++ [{| data := d; type := "spam"; timestamp := date |}];
        App.malware := App.malware h |})
  /\ MalwareDetector.handleSubmit (Response true (Parsed d)) date mst h
     = ({| MalwareDetector.formData := MalwareDetector.formData mst;
           MalwareDetector.result := Some d;
           MalwareDetector.loading := false;
           MalwareDetector.error := None |},
        {| App.spam := App.spam h;
           App.malware := App.malware h
                          ++ [{| data := d; type := "malware";
                                 timestamp := date |}] |}).
Proof. split; reflexivity. Qed.

(** C3, as stated, fails on the body with confidence 1.5: it is out of
    contract, and yet the handler sets no error and the history is not the
    one it was. *)
Lemma C3_counterexample :
  in_contract "spam" body_1_5 = false
  /\ ~ (SpamDetector.error
          (fst (SpamDetector.handleSubmit (Response true (Parsed body_1_5))
                  1700000000000 spam_state_ready App.initialHistory))
        <> None
        /\ snd (SpamDetector.handleSubmit (Response true (Parsed body_1_5))
                  1700000000000 spam_state_ready App.initialHistory)
           = App.initialHistory).
Proof.
  split; [reflexivity |].
  intros [_ H]. vm_compute in H. discriminate H.
Qed.

(** C6, as amended: an attempt whose error [handleSubmit] catches (no
    connection, a status that is not a success, a body that is not JSON)
    leaves the history as it was, in both detectors; no result is kept and
    the message of the error is what the component shows. *)
Theorem C6_failed_prediction_not_appended
    (o : FetchOutcome) (msg : string) (date : Z) (h : App.PredictionHistory)
    (sst : SpamDetector.State) (mst : MalwareDetector.State) :
  caught o = Some msg ->
  (snd (SpamDetector.handleSubmit o date sst h) = h
   /\ SpamDetector.error (fst (SpamDetector.handleSubmit o date sst h))
      = Some msg
   /\ SpamDetector.result (fst (SpamDetector.handleSubmit o date sst h))
      = None)
  /\ (snd (MalwareDetector.handleSubmit o date mst h) = h
      /\ MalwareDetector.error
           (fst (MalwareDetector.handleSubmit o date mst h)) = Some msg
      /\ MalwareDetector.result
           (fst (MalwareDetector.handleSubmit o date mst h)) = None).
Proof.
  intros F.
  destruct o as [m | [|] [m | d]]; cbn in F; inversion F; subst;
    repeat split.
Qed.

Lemma C6_failed_prediction_not_appended_witness :
  caught (Response false (Unparseable "Unexpected token <"))
  = Some "Prediction failed"
  /\ snd (SpamDetector.handleSubmit
            (Response false (Unparseable "Unexpected token <"))
            1700000000000 spam_state_ready (historyOf [body_0_3]))
     = historyOf [body_0_3].
Proof.
  split; [reflexivity |].
  apply (C6_failed_prediction_not_appended
           (Response false (Unparseable "Unexpected token <"))
           "Prediction failed" 1700000000000 (historyOf [body_0_3])
           spam_state_ready MalwareDetector.initial).
  reflexivity.
Defined.

(** C6, as stated, fails on an attempt that the specification counts as
    failed: the body with confidence 1.5 is malformed in its words, and yet
    [handleSubmit] appends it to the history and surfaces no message. *)
Lemma C6_counterexample :
  failed_attempt "malware" (Response true (Parsed malwareBody_1_5)) = true
  /\ snd (MalwareDetector.handleSubmit
            (Response true (Parsed malwareBody_1_5)) 1700000000000
            MalwareDetector.initial App.initialHistory)
     = {| App.spam := [];
          App.malware := [{| data := malwareBody_1_5; type := "malware";
                             timestamp := 1700000000000 |}] |}
  /\ MalwareDetector.error
       (fst (MalwareDetector.handleSubmit
               (Response true (Parsed malwareBody_1_5)) 1700000000000
               MalwareDetector.initial App.initialHistory))
     = None.
Proof. repeat split. Qed.

(** C8: with an [emailText] of fewer than 10 code units the submit button
    is disabled: a click leaves the state as it is and issues no
    request. *)
Theorem C8_short_email_not_submitted (st : SpamDetector.State) :
  (List.length (SpamDetector.emailText st) < 10)%nat ->
  SpamDetector.submitDisabled st = true
  /\ SpamDetector.clickSubmit st = (st, None).
Proof.
  intros H. unfold SpamDetector.clickSubmit, SpamDetector.submitDisabled.
  assert (E : (List.length (SpamDetector.emailText st) <? 10)%nat = true)
    by (apply Nat.ltb_lt; exact H).
  rewrite E, orb_true_r. split; reflexivity.
Qed.

Lemma C8_short_email_not_submitted_witness :
  (List.length (SpamDetector.emailText
                  (SpamDetector.setEmailText (Js.str "Buy now!!")
                     SpamDetector.initial)) < 10)%nat
  /\ SpamDetector.clickSubmit
       (SpamDetector.setEmailText (Js.str "Buy now!!") SpamDetector.initial)
     = (SpamDetector.setEmailText (Js.str "Buy now!!") SpamDetector.initial,
        None).
Proof.
  split; [vm_compute; lia |].
  apply C8_short_email_not_submitted. vm_compute. lia.
Defined.

(** From 10 code units on, and when no request is pending, the click does
    issue the request, with [emailText] as its [email_text]. *)
Lemma clickSubmit_long (st : SpamDetector.State) :
  (10 <= List.length (SpamDetector.emailText st))%nat ->
  SpamDetector.loading st = false ->
  exists st' r,
    SpamDetector.clickSubmit st = (st', Some r)
    /\ body r = [("email_text", JString (SpamDetector.emailText st))].
Proof.
  intros H L. unfold SpamDetector.clickSubmit, SpamDetector.submitDisabled.
  assert (E : (List.length (SpamDetector.emailText st) <? 10)%nat = false)
    by (apply Nat.ltb_ge; exact H).
  rewrite E, L. cbn. eexists. eexists. split; reflexivity.
Qed.

End Handlers.

(** ** The trend window of [AnalyticsDashboard] *)

Section TrendWindow.

Import AnalyticsDashboard.

Lemma run_snoc (ts : list Tick) (t : Tick) (s : list TrendPoint) :
  run (ts ++ [t]) s = tick t (run ts s).
Proof. unfold run. rewrite fold_left_app. reflexivity. Qed.

Lemma tl_skipn {A : Type} (k : nat) (l : list A) :
  List.tl (List.skipn k l) = List.skipn (S k) l.
Proof.
  revert l. induction k as [| k IH]; intros [| x l]; try reflexivity.
  - change (List.tl (List.skipn k l) = List.skipn (S k) l). apply IH.
Qed.

(** A tick on a window of fewer than 20 points appends; on a window of 20
    points it drops the oldest and appends. *)
Lemma tick_below (t : Tick) (prev : list TrendPoint) :
  (List.length prev < 20)%nat -> tick t prev = prev ++ [newPoint t].
Proof.
  intros H. unfold tick. rewrite length_app. cbn [List.length].
  destruct (Nat.ltb_spec 20 (List.length prev + 1)); [lia | reflexivity].
Qed.

Lemma tick_full (t : Tick) (prev : list TrendPoint) :
  List.length prev = 20%nat -> tick t prev = List.tl prev ++ [newPoint t].
Proof.
  intros H. unfold tick. rewrite length_app. cbn [List.length].
  destruct (Nat.ltb_spec 20 (List.length prev + 1)); [| lia].
  destruct prev; [discriminate H | reflexivity].
Qed.

(** After any number of ticks the window holds the points of the last 20
    ticks, in the order of the ticks. *)
Lemma run_last_20 (ts : list Tick) :
  run ts threatTrends0
  = List.skipn (List.length ts - 20) (List.map newPoint ts).
Proof.
  induction ts as [| t ts IH] using rev_ind; [reflexivity |].
  rewrite run_snoc, IH, map_app, length_app. cbn [List.length List.map].
  set (l := List.map newPoint ts).
  assert (Hl : List.length l = List.length ts) by apply length_map.
  destruct (Nat.le_gt_cases 20 (List.length ts)) as [Hge | Hlt].
  - rewrite tick_full by (rewrite length_skipn; lia).
    rewrite tl_skipn.
    replace (List.length ts + 1 - 20)%nat
      with (S (List.length ts - 20)) by lia.
    rewrite (skipn_app (S (List.length ts - 20)) l).
    replace (S (List.length ts - 20) - List.length l)%nat with 0%nat by lia.
    reflexivity.
  - rewrite tick_below by (rewrite length_skipn; lia).
    replace (List.length ts - 20)%nat with 0%nat by lia.
    replace (List.length ts + 1 - 20)%nat with 0%nat by lia.
    reflexivity.
Qed.

(** C5: after every tick the window holds at most 20 points, namely the
    points of the last 20 ticks in tick order; a tick on a full window
    removes its oldest point and appends the new one; and after 25 ticks
    the window is exactly the points of ticks 6 to 25, in order. *)
Theorem C5_trend_window (ts : list Tick) :
  (List.length (run ts threatTrends0) <= 20)%nat
  /\ run ts threatTrends0
     = List.skipn (List.length ts - 20) (List.map newPoint ts)
  /\ (forall t, List.length (run ts threatTrends0) = 20%nat ->
                run (ts ++ [t]) threatTrends0
                = List.tl (run ts threatTrends0) ++ [newPoint t])
  /\ (List.length ts = 25%nat ->
      run ts threatTrends0 = List.map newPoint (List.skipn 5 ts)).
Proof.
  split; [| split; [| split]].
  - rewrite run_last_20, length_skipn, length_map. lia.
  - apply run_last_20.
  - intros t H. rewrite run_snoc. apply tick_full. exact H.
  - intros H. rewrite run_last_20, H. cbn [Nat.sub].
    apply skipn_map.
Qed.

Lemma C5_trend_window_witness :
  List.length ticks_25 = 25%nat
  /\ run ticks_25 threatTrends0 = List.map newPoint (List.skipn 5 ticks_25).
Proof.
  split; [reflexivity |].
  apply (C5_trend_window ticks_25). reflexivity.
Defined.

End TrendWindow.

(** ** The fields of the malware form *)

Section MalwareForm.

Import MalwareDetector.

Lemma keys_set_in (o : FormData) (k : string) (v : Js.Number) :
  In k (keys o) -> keys (set o k v) = keys o.
Proof.
  induction o as [| [k' v'] o IH]; intros H; [destruct H |].
  cbn [set]. destruct (String.eqb_spec k' k) as [E | E]; [reflexivity |].
  cbn [keys List.map fst] in *. f_equal. apply IH.
  destruct H as [H | H]; [congruence | exact H].
Qed.

Lemma get_set_same (o : FormData) (k : string) (v : Js.Number) :
  get (set o k v) k = Some v.
Proof.
  induction o as [| [k' v'] o IH]; cbn [set get].
  - rewrite String.eqb_refl. reflexivity.
  - destruct (String.eqb_spec k' k) as [E | E]; cbn [get].
    + subst. rewrite String.eqb_refl. reflexivity.
    + apply String.eqb_neq in E. rewrite E. exact IH.
Qed.

Lemma includes_In (l : list string) (k : string) :
  includes l k = true -> In k l.
Proof.
  unfold includes. intros H. apply existsb_exists in H.
  destruct H as [x [Hx E]]. apply String.eqb_eq in E. subst. exact Hx.
Qed.

Lemma inputNames_are_keys (fd : FormData) (name : string) :
  keys fd = keys formData0 -> In name (inputNames fd) -> In name (keys fd).
Proof.
  intros E H. unfold inputNames in H. apply in_app_or in H.
  destruct H as [H | H].
  - rewrite E. apply includes_In.
    assert (A : List.forallb (includes (keys formData0)) importantFields
                = true) by reflexivity.
    rewrite forallb_forall in A. apply A. exact H.
  - apply filter_In in H. apply H.
Qed.

Lemma keys_loadExample (type : string) (fd : FormData) :
  keys fd = keys formData0 -> keys (loadExample type fd) = keys fd.
Proof.
  intros E. unfold loadExample.
  assert (K : forall k, includes (keys formData0) k = true ->
                     forall o, keys o = keys formData0 -> In k (keys o)).
  { intros k Hk o Ho. rewrite Ho. apply includes_In. exact Hk. }
  assert (S1 : forall k v o, includes (keys formData0) k = true ->
                 keys o = keys formData0 ->
                 keys (set o k v) = keys formData0).
  { intros k v o Hk Ho. rewrite keys_set_in; [exact Ho |].
    apply K; assumption. }
  destruct (String.eqb type "malware"); rewrite E;
    repeat (apply S1; [reflexivity |]); exact E.
Qed.

Lemma keys_reachable (fd : FormData) :
  reachable fd -> keys fd = keys formData0.
Proof.
  induction 1 as [| fd name value R IH Hin | fd type R IH].
  - reflexivity.
  - unfold handleChange. rewrite keys_set_in; [exact IH |].
    apply inputNames_are_keys; assumption.
  - rewrite keys_loadExample; assumption.
Qed.

(** C7, as amended: [formData] has exactly 33 named Number fields, the 33
    names of lines 586-618, in every state that the form can reach, and the
    body of the malware request is an object with exactly those 33 names. *)
Theorem C7_form_has_33_fields (st : State) :
  reachable (formData st) ->
  keys (formData st) = keys formData0
  /\ List.length (keys (formData st)) = 33%nat
  /\ NoDup (keys (formData st))
  /\ List.map fst (body (snd (handleSubmit_start st))) = keys formData0.
Proof.
  intros R. apply keys_reachable in R.
  assert (N : NoDup (keys formData0)).
  { replace (keys formData0) with (List.nodup string_dec (keys formData0))
      by (vm_compute; reflexivity).
    apply NoDup_nodup. }
  split; [exact R |]. split; [rewrite R; reflexivity |].
  split; [rewrite R; exact N |].
  cbn [handleSubmit_start snd body]. rewrite map_map. exact R.
Qed.

Lemma C7_form_has_33_fields_witness :
  List.length (keys (formData form_state_edited)) = 33%nat.
Proof.
  apply (C7_form_has_33_fields form_state_edited).
  apply reach_change; [apply reach_example; apply reach_initial |].
  apply includes_In. reflexivity.
Defined.

(** C7, as stated, fails on the initial form: it has 33 fields, not 32. *)
Lemma C7_counterexample :
  ~ (List.length (keys formData0) = 32%nat).
Proof. vm_compute. discriminate. Qed.

End MalwareForm.

(** ** Rounding to binary64 *)

Section Rounding.

Lemma fexp_64 (x : Z) : fexp prec emax x = Z.max (x - 53) (-1074).
Proof. reflexivity. Qed.

Lemma iter_pos_nat {A : Type} (f : A -> A) (p : positive) (x : A) :
  iter_pos f p x = Nat.iter (Pos.to_nat p) f x.
Proof.
  revert x. induction p as [p IH | p IH |]; intros x; cbn [iter_pos].
  - rewrite !IH, <- Nat.iter_add, <- Nat.iter_succ_r. f_equal. lia.
  - rewrite !IH, <- Nat.iter_add. f_equal. lia.
  - reflexivity.
Qed.

(** The number of bits of a positive. *)
Lemma digits2_pos_bounds (p : positive) :
  2 ^ (Zpos (digits2_pos p) - 1) <= Zpos p < 2 ^ Zpos (digits2_pos p).
Proof.
  induction p as [p IH | p IH |]; cbn [digits2_pos].
  - rewrite Pos2Z.inj_succ. change (Zpos p~1) with (2 * Zpos p + 1).
    replace (Z.succ (Zpos (digits2_pos p)) - 1)
      with (Z.succ (Zpos (digits2_pos p) - 1)) by lia.
    rewrite !Z.pow_succ_r by lia. lia.
  - rewrite Pos2Z.inj_succ. change (Zpos p~0) with (2 * Zpos p).
    replace (Z.succ (Zpos (digits2_pos p)) - 1)
      with (Z.succ (Zpos (digits2_pos p) - 1)) by lia.
    rewrite !Z.pow_succ_r by lia. lia.
  - cbn. lia.
Qed.

Lemma Zdigits2_le (q k : Z) : 0 <= q < 2 ^ k -> 0 <= k -> Zdigits2 q <= k.
Proof.
  intros [H0 H1] Hk. destruct q as [| p | p]; cbn [Zdigits2]; [lia | | lia].
  destruct (Z.le_gt_cases (Zpos (digits2_pos p)) k) as [L | G]; [exact L |].
  pose proof (digits2_pos_bounds p) as [B _].
  assert (2 ^ k <= 2 ^ (Zpos (digits2_pos p) - 1))
    by (apply Z.pow_le_mono_r; lia).
  lia.
Qed.

(** One step of the right shift halves the mantissa and records the bit
    that falls off. *)
Lemma shr_1_spec (mrs : shr_record) :
  0 <= shr_m mrs ->
  shr_m (shr_1 mrs) = shr_m mrs / 2
  /\ shr_r (shr_1 mrs) = Z.odd (shr_m mrs).
Proof.
  destruct mrs as [m r s]. cbn [shr_m]. intros Hm.
  rewrite <- Z.div2_div.
  destruct m as [| [p | p |] | p]; cbn; try lia; split; reflexivity.
Qed.

Lemma shr_iter_spec (m : Z) (n : nat) :
  0 <= m ->
  let mrs := Nat.iter n shr_1 (Build_shr_record m false false) in
  shr_m mrs = m / 2 ^ Z.of_nat n
  /\ (shr_r mrs = true ->
      (0 < n)%nat /\ 2 ^ (Z.of_nat n - 1) <= m mod 2 ^ Z.of_nat n).
Proof.
  intros Hm. induction n as [| n IH]; cbn zeta.
  - cbn. rewrite Z.div_1_r. split; [reflexivity | discriminate].
  - rewrite Nat.iter_succ. cbn zeta in IH. destruct IH as [IHm _].
    set (mrs := Nat.iter n shr_1 (Build_shr_record m false false)) in *.
    assert (P : 0 < 2 ^ Z.of_nat n) by (apply Z.pow_pos_nonneg; lia).
    assert (Hq : 0 <= shr_m mrs)
      by (rewrite IHm; apply Z.div_pos; lia).
    destruct (shr_1_spec mrs Hq) as [E1 E2].
    rewrite Nat2Z.inj_succ, Z.pow_succ_r by lia.
    split.
    + rewrite E1, IHm, Z.div_div by lia. f_equal. lia.
    + intros R. rewrite E2, IHm in R. split; [lia |].
      replace (Z.succ (Z.of_nat n) - 1) with (Z.of_nat n) by lia.
      rewrite (Z.mul_comm 2), Z.rem_mul_r by lia.
      rewrite Zmod_odd, R.
      pose proof (Z.mod_pos_bound m (2 ^ Z.of_nat n) P). lia.
Qed.

Lemma round_nearest_even_cases (mrs : shr_record) :
  round_nearest_even (shr_m mrs) (loc_of_shr_record mrs) = shr_m mrs
  \/ (round_nearest_even (shr_m mrs) (loc_of_shr_record mrs) = shr_m mrs + 1
      /\ shr_r mrs = true).
Proof.
  destruct mrs as [m [|] [|]]; cbn; auto.
  destruct (Z.even m); auto.
Qed.

(** The first half of a rounding, from an exact mantissa [m] at exponent
    [e]: the exponent moves up to the one of the format, the mantissa is
    divided accordingly, and it is incremented only if at least half a unit
    was shifted out. *)
Lemma shr_fexp_exact (m e : Z) :
  0 <= m ->
  forall mrs e', shr_fexp prec emax m e loc_Exact = (mrs, e') ->
  e' = Z.max e (fexp prec emax (Zdigits2 m + e))
  /\ shr_m mrs = m / 2 ^ (e' - e)
  /\ (round_nearest_even (shr_m mrs) (loc_of_shr_record mrs)
      = m / 2 ^ (e' - e)
      \/ (round_nearest_even (shr_m mrs) (loc_of_shr_record mrs)
          = m / 2 ^ (e' - e) + 1
          /\ 0 < e' - e
          /\ 2 ^ (e' - e - 1) <= m mod 2 ^ (e' - e))).
Proof.
  intros Hm mrs e'. unfold shr_fexp, shr. cbn [shr_record_of_loc].
  destruct (fexp prec emax (Zdigits2 m + e) - e) as [| p | p] eqn:N;
    intros E; injection E as <- <-.
  - replace (Z.max e (fexp prec emax (Zdigits2 m + e))) with e by lia.
    rewrite Z.sub_diag, Z.div_1_r. cbn. auto.
  - replace (Z.max e (fexp prec emax (Zdigits2 m + e)))
      with (e + Zpos p) by lia.
    replace (e + Zpos p - e) with (Zpos p) by lia.
    rewrite iter_pos_nat.
    pose proof (shr_iter_spec m (Pos.to_nat p) Hm) as S.
    cbn zeta in S. rewrite positive_nat_Z in S. destruct S as [S1 S2].
    split; [reflexivity |]. split; [exact S1 |].
    destruct (round_nearest_even_cases
                (Nat.iter (Pos.to_nat p) shr_1
                   (Build_shr_record m false false))) as [R | [R1 R2]].
    + left. rewrite R. exact S1.
    + right. rewrite R1, S1. split; [reflexivity |].
      destruct (S2 R2) as [_ S3]. split; [lia | exact S3].
  - replace (Z.max e (fexp prec emax (Zdigits2 m + e))) with e by lia.
    rewrite Z.sub_diag, Z.div_1_r. cbn. auto.
Qed.

(** A whole rounding of the exact value [m * 2^e]. *)
Lemma binary_round_aux_exact (s : bool) (m : positive) (e : Z) :
  exists e1 q e3,
    e1 = Z.max e (fexp prec emax (Zpos (digits2_pos m) + e))
    /\ (q = Zpos m / 2 ^ (e1 - e)
        \/ (q = Zpos m / 2 ^ (e1 - e) + 1
            /\ 0 < e1 - e
            /\ 2 ^ (e1 - e - 1) <= Zpos m mod 2 ^ (e1 - e)))
    /\ e3 = Z.max e1 (fexp prec emax (Zdigits2 q + e1))
    /\ binary_round_aux prec emax s (Zpos m) e loc_Exact
       = match q / 2 ^ (e3 - e1) with
         | Z0 => S754_zero s
         | Zpos p =>
             if e3 <=? emax - prec then S754_finite s p e3
             else S754_infinity s
         | Zneg _ => S754_nan
         end.
Proof.
  unfold binary_round_aux.
  destruct (shr_fexp prec emax (Zpos m) e loc_Exact) as [mrs1 e1] eqn:E1.
  apply shr_fexp_exact in E1; [| lia]. destruct E1 as [A1 [_ A3]].
  cbn [Zdigits2] in A1.
  set (q := round_nearest_even (shr_m mrs1) (loc_of_shr_record mrs1)) in *.
  assert (Hq : 0 <= q).
  { assert (0 <= Zpos m / 2 ^ (e1 - e))
      by (apply Z.div_pos; [lia | apply Z.pow_pos_nonneg; lia]).
    destruct A3 as [-> | [-> _]]; lia. }
  destruct (shr_fexp prec emax q e1 loc_Exact) as [mrs3 e3] eqn:E3.
  apply shr_fexp_exact in E3; [| exact Hq]. destruct E3 as [B1 [B2 _]].
  exists e1, q, e3. rewrite B2. auto.
Qed.

End Rounding.

(** ** [parseInt] and the value stored by [handleChange] *)

Section StoredValue.

Import MalwareDetector.

Lemma pos_iter_xO (m k : positive) :
  Zpos (Pos.iter xO m k) = Zpos m * 2 ^ Zpos k.
Proof.
  induction k as [| k IH] using Pos.peano_ind.
  - cbn [Pos.iter]. change (Zpos m~0) with (2 * Zpos m). lia.
  - rewrite Pos.iter_succ, Pos2Z.inj_succ, Z.pow_succ_r by lia.
    change (Zpos (Pos.iter xO m k)~0) with (2 * Zpos (Pos.iter xO m k)).
    rewrite IH. lia.
Qed.

Lemma digits_iter_xO (m k : positive) :
  Zpos (digits2_pos (Pos.iter xO m k)) = Zpos (digits2_pos m) + Zpos k.
Proof.
  induction k as [| k IH] using Pos.peano_ind.
  - cbn [Pos.iter digits2_pos]. lia.
  - rewrite Pos.iter_succ. cbn [digits2_pos]. lia.
Qed.

(** An integer of at most 53 bits is represented exactly: its mantissa is
    shifted left to 53 bits and nothing is rounded. *)
Lemma binary_round_small (s : bool) (m : positive) :
  Zpos (digits2_pos m) <= 53 ->
  exists mz,
    Zpos mz = Zpos m * 2 ^ (53 - Zpos (digits2_pos m))
    /\ binary_round prec emax s m 0
       = S754_finite s mz (Zpos (digits2_pos m) - 53).
Proof.
  intros Hd. set (d := Zpos (digits2_pos m)) in *.
  assert (Hd1 : 1 <= d) by (unfold d; lia).
  unfold binary_round, shl_align. rewrite Z.add_0_r, Z.sub_0_r, fexp_64.
  fold d. replace (Z.max (d - 53) (-1074)) with (d - 53) by lia.
  assert (exists mz, Zpos mz = Zpos m * 2 ^ (53 - d)
                     /\ Zpos (digits2_pos mz) = 53
                     /\ match d - 53 with
                        | Zneg k => (Pos.iter xO m k, d - 53)
                        | _ => (m, 0)
                        end = (mz, d - 53)) as [mz [V [D ->]]].
  { destruct (d - 53) as [| k | k] eqn:K; try lia.
    - exists m. replace (53 - d) with 0 by lia.
      rewrite Z.mul_1_r. repeat split. fold d. lia.
    - exists (Pos.iter xO m k). rewrite pos_iter_xO, digits_iter_xO. fold d.
      replace (53 - d) with (Zpos k) by lia. repeat split. lia. }
  exists mz. split; [exact V |].
  destruct (binary_round_aux_exact s mz (d - 53))
    as [e1 [q [e3 [E1 [Q [E3 ->]]]]]].
  rewrite D, fexp_64 in E1.
  assert (He1 : e1 = d - 53) by lia. clear E1. subst e1.
  rewrite Z.sub_diag, Z.div_1_r in Q.
  destruct Q as [-> | [_ [Q _]]]; [| lia].
  cbn [Zdigits2] in E3. rewrite D, fexp_64 in E3.
  assert (He3 : e3 = d - 53) by lia. clear E3. subst e3.
  rewrite Z.sub_diag, Z.div_1_r.
  assert (L : (d - 53 <=? emax - prec) = true)
    by (apply Z.leb_le; unfold emax, prec; lia).
  rewrite L. reflexivity.
Qed.

(** An integer of 53 bits or more is rounded at a non-negative exponent,
    or overflows. *)
Lemma binary_round_large (s : bool) (m : positive) :
  53 <= Zpos (digits2_pos m) ->
  binary_round prec emax s m 0 = S754_zero s
  \/ binary_round prec emax s m 0 = S754_infinity s
  \/ exists p e, 0 <= e /\ binary_round prec emax s m 0 = S754_finite s p e.
Proof.
  intros Hd. set (d := Zpos (digits2_pos m)) in *.
  unfold binary_round, shl_align. rewrite Z.add_0_r, Z.sub_0_r, fexp_64.
  fold d. replace (Z.max (d - 53) (-1074)) with (d - 53) by lia.
  assert (match d - 53 with
          | Zneg k => (Pos.iter xO m k, d - 53)
          | _ => (m, 0)
          end = (m, 0)) as -> by (destruct (d - 53) eqn:K; try lia; reflexivity).
  destruct (binary_round_aux_exact s m 0)
    as [e1 [q [e3 [E1 [Q [E3 ->]]]]]].
  assert (Hq : 0 <= q).
  { assert (0 <= Zpos m / 2 ^ (e1 - 0))
      by (apply Z.div_pos; [lia | apply Z.pow_pos_nonneg; lia]).
    destruct Q as [-> | [-> _]]; lia. }
  assert (Hq3 : 0 <= q / 2 ^ (e3 - e1))
    by (apply Z.div_pos; [lia | apply Z.pow_pos_nonneg; lia]).
  destruct (q / 2 ^ (e3 - e1)) as [| p | p]; [| | lia].
  - left. reflexivity.
  - destruct (e3 <=? emax - prec).
    + right. right. exists p, e3. split; [lia | reflexivity].
    + right. left. reflexivity.
Qed.

(** The Number of an integer is an integer, or an infinity. *)
Lemma of_Z_integral (z : Z) :
  Js.isInteger (Js.of_Z z) = true \/ exists s, Js.of_Z z = S754_infinity s.
Proof.
  assert (R : forall s m,
             Js.isInteger (binary_round prec emax s m 0) = true
             \/ binary_round prec emax s m 0 = S754_infinity s).
  { intros s m.
    destruct (Z.le_gt_cases (Zpos (digits2_pos m)) 53) as [Hd | Hd].
    - destruct (binary_round_small s m Hd) as [mz [V ->]]. left.
      cbn [Js.isInteger]. apply orb_true_iff. right. apply Z.eqb_eq.
      rewrite V. replace (- (Zpos (digits2_pos m) - 53))
        with (53 - Zpos (digits2_pos m)) by lia.
      apply Z_mod_mult.
    - destruct (binary_round_large s m) as [-> | [-> | [p [e [He ->]]]]];
        [lia | left; reflexivity | right; reflexivity |].
      left. cbn [Js.isInteger]. apply orb_true_iff. left.
      apply Z.leb_le. exact He. }
  unfold Js.of_Z, binary_normalize. destruct z as [| m | m].
  - left. reflexivity.
  - destruct (R false m) as [H | H]; [left; exact H | right; eauto].
  - destruct (R true m) as [H | H]; [left; exact H | right; eauto].
Qed.

(** Below 2^53 in magnitude the Number of an integer denotes it. *)
Lemma of_Z_exact (z : Z) :
  Z.abs z < 2 ^ 53 -> integerOf (Js.of_Z z) = Some z.
Proof.
  assert (R : forall s m,
             Zpos m < 2 ^ 53 ->
             integerOf (binary_round prec emax s m 0)
             = Some (cond_Zopp s (Zpos m))).
  { intros s m Hm.
    assert (Hd : Zpos (digits2_pos m) <= 53).
    { apply (Zdigits2_le (Zpos m) 53); lia. }
    destruct (binary_round_small s m Hd) as [mz [V ->]].
    set (d := Zpos (digits2_pos m)) in *. cbn [integerOf].
    replace (- (d - 53)) with (53 - d) by lia.
    assert (P : 0 < 2 ^ (53 - d)) by (apply Z.pow_pos_nonneg; lia).
    destruct (Z.leb_spec 0 (d - 53)) as [L | L].
    - assert (d = 53) by lia. replace (d - 53) with 0 by lia.
      rewrite V. replace (53 - d) with 0 by lia. f_equal. f_equal. lia.
    - rewrite V, Z_mod_mult, Z.eqb_refl, Z.div_mul by lia. reflexivity. }
  intros Hz. unfold Js.of_Z, binary_normalize. destruct z as [| m | m].
  - reflexivity.
  - apply (R false m). lia.
  - apply (R true m). lia.
Qed.

Ltac digit_cases c H :=
  let E := fresh "E" in
  assert (E : (c = 48 \/ c = 49 \/ c = 50 \/ c = 51 \/ c = 52 \/ c = 53
               \/ c = 54 \/ c = 55 \/ c = 56 \/ c = 57)%N)
    by (unfold isDecimalDigit in H; lia);
  clear H;
  destruct E as [E | [E | [E | [E | [E | [E | [E | [E | [E | E]]]]]]]]];
  subst c.

Lemma digitsPrefix_decimal (ds rest : Js.String) :
  Forall isDecimalDigit ds ->
  rest = [] \/ (exists r, rest = 46%N :: r) ->
  Js.digitsPrefix 10 (ds ++ rest)
  = List.map (fun c => Z.of_N c - 48) ds.
Proof.
  intros F R. induction F as [| c ds Hc F IH].
  - destruct R as [-> | [r ->]]; reflexivity.
  - cbn [app Js.digitsPrefix List.map]. rewrite IH.
    digit_cases c Hc; reflexivity.
Qed.

(** On a text that starts with decimal digits and goes on, if at all, with
    a point, parseInt reads the digits before the point. *)
Lemma parseInt_decimal (ds rest : Js.String) :
  ds <> [] ->
  Forall isDecimalDigit ds ->
  rest = [] \/ (exists r, rest = 46%N :: r) ->
  Js.parseInt (ds ++ rest)
  = if decimalValue ds =? 0 then S754_zero false
    else Js.of_Z (decimalValue ds).
Proof.
  intros Hne F R.
  pose proof (digitsPrefix_decimal ds rest F R) as D.
  destruct ds as [| c ds]; [congruence | clear Hne].
  assert (T : Js.parseInt ((c :: ds) ++ rest)
              = match Js.digitsPrefix 10 ((c :: ds) ++ rest) with
                | [] => Js.NaN
                | d :: l =>
                    if Js.mathInt 10 (d :: l) =? 0 then S754_zero false
                    else Js.of_Z (1 * Js.mathInt 10 (d :: l))
                end).
  { inversion F as [| c' ds' Hc F']. subst. clear D.
    destruct ds as [| c2 ds].
    - destruct R as [-> | [r ->]]; digit_cases c Hc; reflexivity.
    - inversion F' as [| c2' ds2 Hc2 F'']. subst.
      digit_cases c Hc; try reflexivity.
      digit_cases c2 Hc2; reflexivity. }
  rewrite T, D. cbn [List.map]. unfold decimalValue. cbn [List.map].
  rewrite Z.mul_1_l. reflexivity.
Qed.

Lemma mathInt_nonneg (ds : list Z) :
  Forall (fun d => 0 <= d) ds -> 0 <= Js.mathInt 10 ds.
Proof.
  unfold Js.mathInt. intros F.
  assert (G : forall acc, 0 <= acc ->
                0 <= List.fold_left (fun a d => a * 10 + d) ds acc).
  { induction F as [| d ds Hd F IH]; intros acc Ha; [exact Ha |].
    cbn [List.fold_left]. apply IH. lia. }
  apply G. lia.
Qed.

Lemma decimalValue_nonneg (ds : Js.String) :
  Forall isDecimalDigit ds -> 0 <= decimalValue ds.
Proof.
  intros F. unfold decimalValue. apply mathInt_nonneg.
  induction F as [| c ds Hc F IH]; constructor; [| exact IH].
  unfold isDecimalDigit in Hc. lia.
Qed.

Lemma storedValue_integral (value : Js.String) :
  Js.isInteger (storedValue value) = true
  \/ exists s, storedValue value = S754_infinity s.
Proof.
  unfold storedValue, Js.or_else, Js.parseInt.
  destruct (Js.trimStart value) as [| c s0]; [left; reflexivity |].
  match goal with
  | |- context [let '(R, s2) := ?hd in _] => destruct hd as [R s2]
  end.
  destruct (Js.digitsPrefix R s2) as [| d ds]; [left; reflexivity |].
  destruct (Js.mathInt R (d :: ds) =? 0); [left; reflexivity |].
  match goal with
  | |- context [Js.of_Z ?z] =>
      destruct (of_Z_integral z) as [H | [s H]];
      destruct (Js.of_Z z) eqn:E; cbn [Js.truthy];
      try discriminate; eauto
  end.
Qed.

(** C10, as amended: after [handleChange] the field named by the input
    holds [parseInt(value) || 0], which is an integer-valued Number or an
    infinity (digits beyond the range of a Number); a text that parseInt
    cannot read, the empty text among them, stores 0; of decimal digits
    followed by a point and anything, only the digits before the point are
    read, and the value they denote is stored exactly when it is below
    2^53. *)
Theorem C10_handleChange_stores_integer
    (name : string) (value : Js.String) (prev : FormData) :
  get (handleChange name value prev) name = Some (storedValue value)
  /\ (Js.isInteger (storedValue value) = true
      \/ exists s, storedValue value = S754_infinity s)
  /\ (Js.parseInt value = Js.NaN -> storedValue value = Js.lit_0)
  /\ storedValue [] = Js.lit_0
  /\ (forall ds rest,
        ds <> [] -> Forall isDecimalDigit ds ->
        value = ds ++ 46%N :: rest ->
        storedValue value = storedValue ds
        /\ (decimalValue ds < 2 ^ 53 ->
            integerOf (storedValue value) = Some (decimalValue ds))).
Proof.
  split; [apply get_set_same |].
  split; [apply storedValue_integral |].
  split; [intros E; unfold storedValue; rewrite E; reflexivity |].
  split; [reflexivity |].
  intros ds rest Hne F ->.
  assert (E : storedValue (ds ++ 46%N :: rest) = storedValue ds).
  { unfold storedValue.
    rewrite (parseInt_decimal ds (46%N :: rest)) by eauto.
    rewrite <- (app_nil_r ds) at 3.
    rewrite (parseInt_decimal ds []) by eauto. reflexivity. }
  split; [exact E |].
  intros B. rewrite E. unfold storedValue.
  rewrite <- (app_nil_r ds) at 1.
  rewrite (parseInt_decimal ds []) by eauto.
  pose proof (decimalValue_nonneg ds F) as N.
  destruct (Z.eqb_spec (decimalValue ds) 0) as [Z0 | NZ].
  - rewrite Z0. reflexivity.
  - pose proof (of_Z_exact (decimalValue ds)) as X.
    rewrite Z.abs_eq in X by exact N. specialize (X B).
    unfold Js.or_else.
    destruct (Js.of_Z (decimalValue ds)) as [s | s | | s m e] eqn:V;
      cbn [Js.truthy]; try exact X; discriminate X.
Qed.

Lemma C10_handleChange_stores_integer_witness :
  storedValue (Js.str "17.9") = storedValue (Js.str "17")
  /\ integerOf (storedValue (Js.str "17.9")) = Some 17.
Proof.
  pose proof (C10_handleChange_stores_integer
                "prio" (Js.str "17.9") formData0) as [_ [_ [_ [_ H]]]].
  specialize (H (Js.str "17") (Js.str "9")).
  destruct H as [H1 H2].
  - discriminate.
  - repeat constructor; unfold isDecimalDigit; cbn; lia.
  - reflexivity.
  - split; [exact H1 |]. apply H2. vm_compute. reflexivity.
Defined.

(** C10, as stated, fails on a text of 310 digits: what [handleChange]
    stores for it is Infinity, which is not an integer. *)
Lemma C10_counterexample :
  get (handleChange "prio" text_1e309 formData0) "prio" = Some Js.Infinity
  /\ ~ (exists v, get (handleChange "prio" text_1e309 formData0) "prio"
                  = Some v
                  /\ Js.isInteger v = true).
Proof.
  assert (E : get (handleChange "prio" text_1e309 formData0) "prio"
              = Some Js.Infinity) by (vm_compute; reflexivity).
  split; [exact E |].
  intros [v [G I]]. rewrite E in G. injection G as <-. discriminate I.
Qed.

End StoredValue.

(** ** The simulated counts of [AnalyticsDashboard] *)

Section SimulatedCounts.

Import AnalyticsDashboard.

(** A draw of [Math.random()] is a zero, or a positive Number of at most
    53 bits whose exponent is at most -53. *)
Lemma random_shape (r : Js.Number) :
  is_random r = true ->
  (exists s, r = S754_zero s)
  \/ (exists m e, r = S754_finite false m e
                  /\ -1074 <= e <= -53 /\ Zpos m < 2 ^ 53).
Proof.
  unfold is_random. intros H.
  apply andb_true_iff in H. destruct H as [H H1].
  apply andb_true_iff in H. destruct H as [Hv H0].
  destruct r as [s | s | | s m e].
  - left. eauto.
  - destruct s; [discriminate H0 | discriminate H1].
  - discriminate H0.
  - destruct s; [discriminate H0 |]. right. exists m, e.
    split; [reflexivity |].
    unfold Js.lt, Js.lit_1 in H1. apply SFltb_fin_pos in H1.
    cbn [SpecFloat.valid_binary] in Hv. unfold bounded in Hv.
    apply andb_true_iff in Hv. destruct Hv as [Hc _].
    unfold canonical_mantissa in Hc. apply Z.eqb_eq in Hc.
    rewrite fexp_64 in Hc.
    pose proof (digits2_pos_bounds m) as [_ Hm].
    assert (Hd1 : 1 <= Zpos (digits2_pos m)) by (clear; lia).
    remember (Zpos (digits2_pos m)) as d eqn:Ed.
    assert (Hd : d <= 53) by (clear - Hc; lia).
    assert (Hm53 : Zpos m < 2 ^ 53).
    { assert (2 ^ d <= 2 ^ 53)
        by (apply Z.pow_le_mono_r; clear - Hd Hd1; lia).
      clear - Hm H. lia. }
    split; [| exact Hm53].
    destruct H1 as [H1 | [H1 H2]]; [lia |]. exfalso.
    assert (E52 : Zpos (digits2_pos m) <= 52).
    { apply (Zdigits2_le (Zpos m) 52); [| lia].
      split; [lia |]. change (2 ^ 52) with 4503599627370496.
      exact H2. }
    clear - E52 Ed Hc H1. lia.
Qed.

(** The multiplier of a draw: the integer [C], written [my * 2^ey] with a
    mantissa of 53 bits that is not a power of two. *)
Section Multiplier.

Variables (my : positive) (ey C : Z).
Hypothesis Hmy : 2 ^ 52 < Zpos my < 2 ^ 53.
Hypothesis Hey : -53 <= ey < 0.
Hypothesis HC : Zpos my = C * 2 ^ (- ey).

(** The product of a draw by the multiplier is a zero or a positive Number
    below the multiplier: the rounding of the product never reaches it. *)
Lemma mul_below (m : positive) (e : Z) :
  -1074 <= e <= -53 -> Zpos m < 2 ^ 53 ->
  Js.mul (S754_finite false m e) (S754_finite false my ey) = S754_zero false
  \/ exists p e3,
       Js.mul (S754_finite false m e) (S754_finite false my ey)
       = S754_finite false p e3
       /\ e3 <= ey /\ Zpos p < Zpos my * 2 ^ (ey - e3).
Proof.
  intros He Hm. clear HC.
  unfold Js.mul, SF64mul, SFmul. cbn [xorb].
  destruct (binary_round_aux_exact false (m * my) (e + ey))
    as [e1 [q [e3 [E1 [Q [E3 ->]]]]]].
  rewrite Pos2Z.inj_mul in Q.
  set (P := Zpos m * Zpos my) in *.
  assert (HdP : Zpos (digits2_pos (m * my)) <= 106).
  { apply (Zdigits2_le (Zpos (m * my)) 106); [| lia].
    rewrite Pos2Z.inj_mul. change (2 ^ 106) with (2 ^ 53 * 2 ^ 53).
    split; [lia |]. apply Z.mul_lt_mono_nonneg; lia. }
  rewrite fexp_64 in E1.
  assert (He1 : e1 <= ey) by lia.
  assert (Hn1 : 0 <= e1 - (e + ey) <= 53) by lia.
  clear E1 HdP.
  set (n1 := e1 - (e + ey)) in *.
  assert (HW : 0 < 2 ^ n1) by (apply Z.pow_pos_nonneg; lia).
  set (W := 2 ^ n1) in *.
  set (T := Zpos my * 2 ^ (ey - e1)).
  assert (HTW : T * W = Zpos my * 2 ^ (- e)).
  { unfold T, W, n1. rewrite <- Z.mul_assoc, <- Z.pow_add_r by lia.
    f_equal. f_equal. lia. }
  assert (H53 : 2 ^ 53 <= 2 ^ (- e)) by (apply Z.pow_le_mono_r; lia).
  assert (HPb : P <= T * W - Zpos my).
  { rewrite HTW. unfold P. set (X := 2 ^ (- e)) in *. nia. }
  assert (Hdiv : P / W < T).
  { apply Z.div_lt_upper_bound; [exact HW |]. rewrite Z.mul_comm. lia. }
  assert (HP0 : 0 <= P / W) by (apply Z.div_pos; unfold P; lia).
  assert (Hq : 0 <= q < T).
  { destruct Q as [-> | [-> [Hn Hr]]]; [lia |].
    split; [lia |].
    destruct (Z.lt_ge_cases (P / W + 1) T) as [L | G]; [exact L | exfalso].
    assert (Eq : P / W = T - 1) by lia.
    pose proof (Z.div_mod P W ltac:(lia)) as DM. rewrite Eq in DM.
    assert (HH : 2 ^ (n1 - 1) <= 2 ^ 52) by (apply Z.pow_le_mono_r; lia).
    assert (HW2 : W = 2 * 2 ^ (n1 - 1)).
    { unfold W. rewrite <- Z.pow_succ_r by lia. f_equal. lia. }
    set (H := 2 ^ (n1 - 1)) in *.
    assert (W * (T - 1) = T * W - W) by ring.
    lia. }
  assert (HT53 : T <= 2 ^ (53 + ey - e1)).
  { unfold T. replace (53 + ey - e1) with (53 + (ey - e1)) by lia.
    rewrite Z.pow_add_r by lia.
    assert (0 < 2 ^ (ey - e1)) by (apply Z.pow_pos_nonneg; lia). nia. }
  assert (Hdq : Zdigits2 q <= 53 + ey - e1) by (apply Zdigits2_le; lia).
  rewrite fexp_64 in E3.
  assert (He3 : e1 <= e3 <= ey) by lia.
  clear E3.
  assert (HT3 : T = 2 ^ (e3 - e1) * (Zpos my * 2 ^ (ey - e3))).
  { unfold T. rewrite (Z.mul_comm (2 ^ (e3 - e1))), <- Z.mul_assoc,
      <- Z.pow_add_r by lia. f_equal. f_equal. lia. }
  assert (HW3 : 0 < 2 ^ (e3 - e1)) by (apply Z.pow_pos_nonneg; lia).
  assert (Hm3 : 0 <= q / 2 ^ (e3 - e1) < Zpos my * 2 ^ (ey - e3)).
  { split; [apply Z.div_pos; lia |].
    apply Z.div_lt_upper_bound; [exact HW3 |]. lia. }
  destruct (q / 2 ^ (e3 - e1)) as [| p | p]; [left; reflexivity | | lia].
  right. exists p, e3.
  assert (L : (e3 <=? emax - prec) = true)
    by (apply Z.leb_le; unfold emax, prec; lia).
  rewrite L. split; [reflexivity |]. split; lia.
Qed.

(** The floor of the product of a draw by the multiplier is a zero or the
    Number of an integer from 1 to [C - 1]. *)
Lemma floor_mul_below (r : Js.Number) :
  is_random r = true ->
  (exists s, Js.Math_floor (Js.mul r (S754_finite false my ey))
             = S754_zero s)
  \/ (exists k, 1 <= k < C
                /\ Js.Math_floor (Js.mul r (S754_finite false my ey))
                   = Js.of_Z k).
Proof.
  intros Hr.
  destruct (random_shape r Hr) as [[s ->] | [m [e [-> [He Hm]]]]].
  - left. exists s. destruct s; reflexivity.
  - destruct (mul_below m e He Hm)
      as [-> | [p [e3 [-> [He3 Hp]]]]].
    + left. exists false. reflexivity.
    + cbn [Js.Math_floor].
      assert (L : (0 <=? e3) = false) by (apply Z.leb_gt; lia).
      rewrite L. cbn [cond_Zopp].
      rewrite Z.shiftr_div_pow2 by lia.
      assert (HW : 0 < 2 ^ (- e3)) by (apply Z.pow_pos_nonneg; lia).
      assert (Hk : 0 <= Zpos p / 2 ^ (- e3) < C).
      { split; [apply Z.div_pos; lia |].
        apply Z.div_lt_upper_bound; [exact HW |].
        replace (2 ^ (- e3)) with (2 ^ (- ey) * 2 ^ (ey - e3)).
        - rewrite HC in Hp. lia.
        - rewrite <- Z.pow_add_r by lia. f_equal. lia. }
      destruct (Zpos p / 2 ^ (- e3)) as [| k | k] eqn:K.
      * left. exists false. reflexivity.
      * right. exists (Zpos k). split; [lia | reflexivity].
      * lia.
Qed.

End Multiplier.

Lemma add_5 (k : Z) :
  1 <= k < 20 -> Js.add (Js.of_Z k) Js.lit_5 = Js.of_Z (k + 5).
Proof.
  intros H.
  assert (E : k = 1 \/ k = 2 \/ k = 3 \/ k = 4 \/ k = 5 \/ k = 6 \/ k = 7
              \/ k = 8 \/ k = 9 \/ k = 10 \/ k = 11 \/ k = 12 \/ k = 13
              \/ k = 14 \/ k = 15 \/ k = 16 \/ k = 17 \/ k = 18 \/ k = 19)
    by lia.
  repeat (destruct E as [E | E]; [subst k; vm_compute; reflexivity |]).
  subst k. vm_compute. reflexivity.
Qed.

Lemma add_3 (k : Z) :
  1 <= k < 15 -> Js.add (Js.of_Z k) Js.lit_3 = Js.of_Z (k + 3).
Proof.
  intros H.
  assert (E : k = 1 \/ k = 2 \/ k = 3 \/ k = 4 \/ k = 5 \/ k = 6 \/ k = 7
              \/ k = 8 \/ k = 9 \/ k = 10 \/ k = 11 \/ k = 12 \/ k = 13
              \/ k = 14)
    by lia.
  repeat (destruct E as [E | E]; [subst k; vm_compute; reflexivity |]).
  subst k. vm_compute. reflexivity.
Qed.

(** C9: whatever the two draws of [Math.random()] in [0, 1), the spam
    count of the new point is the Number of an integer from 5 to 24 and
    its malware count the Number of an integer from 3 to 17. *)
Theorem C9_simulated_counts_in_range (t : Tick) :
  is_random (random1 t) = true ->
  is_random (random2 t) = true ->
  (exists k, 5 <= k <= 24
             /\ spam (newPoint t) = Js.of_Z k
             /\ integerOf (spam (newPoint t)) = Some k)
  /\ (exists k, 3 <= k <= 17
                /\ malware (newPoint t) = Js.of_Z k
                /\ integerOf (malware (newPoint t)) = Some k).
Proof.
  intros H1 H2. cbn [newPoint spam malware].
  unfold Js.lit_20, Js.lit_15. split.
  - destruct (floor_mul_below 5629499534213120 (-48) 20
                ltac:(cbn; lia) ltac:(lia) eq_refl (random1 t) H1)
      as [[s ->] | [k [Hk ->]]].
    + exists 5. split; [lia |].
      destruct s; split; vm_compute; reflexivity.
    + exists (k + 5). split; [lia |]. rewrite add_5 by exact Hk.
      split; [reflexivity |]. apply of_Z_exact.
      change (2 ^ 53) with 9007199254740992. lia.
  - destruct (floor_mul_below 8444249301319680 (-49) 15
                ltac:(cbn; lia) ltac:(lia) eq_refl (random2 t) H2)
      as [[s ->] | [k [Hk ->]]].
    + exists 3. split; [lia |].
      destruct s; split; vm_compute; reflexivity.
    + exists (k + 3). split; [lia |]. rewrite add_3 by exact Hk.
      split; [reflexivity |]. apply of_Z_exact.
      change (2 ^ 53) with 9007199254740992. lia.
Qed.

Lemma C9_simulated_counts_in_range_witness :
  exists k, 5 <= k <= 24
            /\ spam (newPoint (tick_n 1)) = Js.of_Z k
            /\ integerOf (spam (newPoint (tick_n 1))) = Some k.
Proof.
  apply (C9_simulated_counts_in_range (tick_n 1)); reflexivity.
Defined.

End SimulatedCounts.

(* ===================================================================== *)
(** * Part III: further properties of the code                            *)
(* ===================================================================== *)

(** ** More on the histogram *)

Section HistogramMore.

Import ConfidenceChart.





(** The conversion of line 181 at work: a confidence of [null] is counted
    in the bin 0-10%, the String ["0.55"] in 50-60%, the array [[0.3]] in
    30-40%; [true] converts to 1, which no bin counts, and a String that is
    not a number, an object and a longer array convert to NaN. *)
Lemma coerced_confidences_binned :
  counts (histogram [spamEntry (bodyOfConfidence JNull)])
  = [1; 0; 0; 0; 0; 0; 0; 0; 0; 0]%nat
  /\ counts (histogram
               [spamEntry (bodyOfConfidence (JString (Js.str "0.55")))])
     = [0; 0; 0; 0; 0; 1; 0; 0; 0; 0]%nat
  /\ counts (histogram
               [spamEntry (bodyOfConfidence (JArray [JNumber Js.lit_0_3]))])
     = [0; 0; 0; 1; 0; 0; 0; 0; 0; 0]%nat
  /\ total (histogram
              [spamEntry (bodyOfConfidence (JBool true));
               spamEntry (bodyOfConfidence (JString (Js.str "high")));
               spamEntry (bodyOfConfidence (JObject []));
               spamEntry (bodyOfConfidence
                            (JArray [JNumber Js.lit_0_3;
                                     JNumber Js.lit_0_5]))])
     = 0%nat.
Proof. repeat split; vm_compute; reflexivity. Qed.

Lemma filter_type_retype (t u : string) (l : list Prediction) :
  List.filter (fun p => String.eqb (type p) u) (List.map (retype t) l)
  = if String.eqb t u then List.map (retype t) l else [].
Proof.
  induction l as [| p l IH].
  - destruct (String.eqb t u); reflexivity.
  - cbn [List.map List.filter retype type]. rewrite IH.
    destruct (String.eqb t u); reflexivity.
Qed.

Lemma allPredictions_spam (h : App.PredictionHistory) :
  allPredictions h "spam" = List.map (retype "spam") (App.spam h).
Proof.
  unfold allPredictions. cbn [String.eqb Ascii.eqb Bool.eqb].
  rewrite filter_app, !filter_type_retype. cbn. apply app_nil_r.
Qed.

Lemma allPredictions_malware (h : App.PredictionHistory) :
  allPredictions h "malware" = List.map (retype "malware") (App.malware h).
Proof.
  unfold allPredictions. cbn [String.eqb Ascii.eqb Bool.eqb].
  rewrite filter_app, !filter_type_retype. reflexivity.
Qed.

(** X2: filtering by type gives back the partitions: the snapshot for
    [spam] is the spam partition, the one for [malware] the malware
    partition, and the one for [all] has the size of both together. *)
Theorem allPredictions_partitions (h : App.PredictionHistory) :
  allPredictions h "spam" = List.map (retype "spam") (App.spam h)
  /\ allPredictions h "malware" = List.map (retype "malware") (App.malware h)
  /\ allPredictions h "all"
     = allPredictions h "spam" ++ allPredictions h "malware"
  /\ List.length (allPredictions h "all")
     = (List.length (App.spam h) + List.length (App.malware h))%nat.
Proof.
  split; [apply allPredictions_spam |].
  split; [apply allPredictions_malware |].
  rewrite allPredictions_spam, allPredictions_malware.
  split; [reflexivity |].
  unfold allPredictions. cbn [String.eqb Ascii.eqb Bool.eqb].
  rewrite length_app, !length_map. reflexivity.
Qed.

Lemma counts_histogram_app (a b : list Prediction) :
  counts (histogram (a ++ b))
  = addCounts (counts (histogram a)) (counts (histogram b)).
Proof.
  rewrite !counts_histogram. unfold addCounts.
  induction binFilters as [| f fs IH]; [reflexivity |].
  cbn [List.map List.combine fst snd]. rewrite IH, filter_app, length_app.
  reflexivity.
Qed.

(** X3: bin by bin, the histogram of all results is the sum of the
    histogram of the spam results and the histogram of the malware
    results. *)
Theorem histogram_all_is_sum (h : App.PredictionHistory) :
  counts (histogram (allPredictions h "all"))
  = addCounts (counts (histogram (allPredictions h "spam")))
              (counts (histogram (allPredictions h "malware"))).
Proof.
  rewrite allPredictions_spam, allPredictions_malware.
  apply counts_histogram_app.
Qed.

End HistogramMore.

(** ** Sessions: the history as a log, the submit button as a gate *)

Section Sessions.

Lemma submitAll_snoc (l : list Submission) (s : Submission) (w : Session) :
  submitAll (l ++ [s]) w = submit s (submitAll l w).
Proof. unfold submitAll. rewrite fold_left_app. reflexivity. Qed.

Lemma history_log (l : list Submission) (w : Session) :
  App.spam (history (submitAll l w)) = App.spam (history w) ++ spamLog l
  /\ App.malware (history (submitAll l w))
     = App.malware (history w) ++ malwareLog l.
Proof.
  induction l as [| s l IH] using rev_ind.
  - cbn. rewrite !app_nil_r. split; reflexivity.
  - rewrite submitAll_snoc. unfold spamLog, malwareLog in *.
    rewrite !flat_map_app. cbn [List.flat_map]. rewrite !app_nil_r.
    destruct IH as [IH1 IH2].
    destruct s as [o date | o date];
      destruct o as [m | [|] [m | d]];
      cbn; rewrite ?IH1, ?IH2, ?app_nil_r, <- ?app_assoc;
      split; reflexivity.
Qed.

(** X4: after any sequence of submissions of the two detectors, each
    partition of the history is what it was, followed by one entry per
    success response with a JSON body of its detector, in the order of the
    submissions, with its type and date; a handler never touches the other
    partition, and nothing is ever removed or reordered. *)
Theorem history_is_log_of_accepted (l : list Submission) (w : Session) :
  App.spam (history (submitAll l w)) = App.spam (history w) ++ spamLog l
  /\ App.malware (history (submitAll l w))
     = App.malware (history w) ++ malwareLog l.
Proof. apply history_log. Qed.

(** X5: a click on the enabled submit button of the spam form issues one
    POST of the text to [/predict/spam] and disables the button: a second
    click issues nothing while the request is pending; whatever the
    outcome, the settlement ends the loading state and, the text being
    kept, enables the button again. *)
Theorem spam_button_one_request_at_a_time
    (st st' : SpamDetector.State) (r : Request) :
  SpamDetector.clickSubmit st = (st', Some r) ->
  r = {| url := "http://localhost:8000/predict/spam";
         method := "POST";
         body := [("email_text", JString (SpamDetector.emailText st))] |}
  /\ SpamDetector.clickSubmit st' = (st', None)
  /\ forall o date h,
       SpamDetector.loading
         (fst (SpamDetector.handleSubmit_settle o date st' h)) = false
       /\ SpamDetector.emailText
            (fst (SpamDetector.handleSubmit_settle o date st' h))
          = SpamDetector.emailText st
       /\ SpamDetector.submitDisabled
            (fst (SpamDetector.handleSubmit_settle o date st' h)) = false.
Proof.
  unfold SpamDetector.clickSubmit.
  destruct (SpamDetector.submitDisabled st) eqn:D; [discriminate |].
  cbn. intros E. injection E as <- <-.
  unfold SpamDetector.submitDisabled in D.
  apply orb_false_iff in D. destruct D as [_ D].
  split; [reflexivity |]. split; [reflexivity |].
  intros o date h.
  unfold SpamDetector.submitDisabled.
  destruct o as [m | [|] [m | d]];
    cbn [fst SpamDetector.handleSubmit_settle SpamDetector.withError
         SpamDetector.loading SpamDetector.emailText orb];
    rewrite D; auto.
Qed.

Lemma spam_button_one_request_at_a_time_witness :
  SpamDetector.clickSubmit
    (fst (SpamDetector.clickSubmit spam_state_ready))
  = (fst (SpamDetector.clickSubmit spam_state_ready), None).
Proof.
  apply (spam_button_one_request_at_a_time spam_state_ready
           (fst (SpamDetector.clickSubmit spam_state_ready))
           (snd (SpamDetector.handleSubmit_start spam_state_ready))).
  reflexivity.
Defined.

End Sessions.

(** ** More on the malware form *)

Section MalwareFormMore.

Import MalwareDetector.

Lemma get_set_other (o : FormData) (k k' : string) (v : Js.Number) :
  k' <> k -> get (set o k v) k' = get o k'.
Proof.
  intros N. induction o as [| [h x] o IH]; cbn [set get].
  - apply String.eqb_neq in N. rewrite String.eqb_sym, N. reflexivity.
  - destruct (String.eqb_spec h k) as [E | E]; cbn [get].
    + subst h. destruct (String.eqb_spec k k'); [congruence | reflexivity].
    + rewrite IH. reflexivity.
Qed.

Lemma set_set_same (o : FormData) (k : string) (v v' : Js.Number) :
  set (set o k v) k v' = set o k v'.
Proof.
  induction o as [| [h x] o IH]; cbn [set].
  - rewrite String.eqb_refl. reflexivity.
  - destruct (String.eqb_spec h k) as [E | E]; cbn [set].
    + subst h. rewrite String.eqb_refl. reflexivity.
    + apply String.eqb_neq in E. rewrite E, IH. reflexivity.
Qed.

Lemma set_set_other (o : FormData) (k1 k2 : string) (v1 v2 : Js.Number) :
  k1 <> k2 -> In k1 (keys o) -> In k2 (keys o) ->
  set (set o k1 v1) k2 v2 = set (set o k2 v2) k1 v1.
Proof.
  intros N. induction o as [| [h x] o IH]; intros I1 I2; [destruct I1 |].
  cbn [keys List.map fst In] in I1, I2. cbn [set].
  destruct (String.eqb_spec h k1) as [E1 | E1];
    destruct (String.eqb_spec h k2) as [E2 | E2]; cbn [set].
  - congruence.
  - subst h. rewrite String.eqb_refl.
    apply String.eqb_neq in E2. rewrite E2. reflexivity.
  - subst h. rewrite String.eqb_refl.
    apply String.eqb_neq in E1. rewrite E1. reflexivity.
  - pose proof E1 as F1. pose proof E2 as F2.
    apply String.eqb_neq in F1. apply String.eqb_neq in F2.
    rewrite F1, F2. f_equal. apply IH; tauto.
Qed.

(** X6: a change of one input changes the field of that name and no
    other: every other field reads as before, and the list of fields is
    kept, in its order, when the name is one of them. *)
Theorem handleChange_changes_one_field
    (name : string) (value : Js.String) (fd : FormData) :
  (forall k, k <> name -> get (handleChange name value fd) k = get fd k)
  /\ (In name (keys fd) -> keys (handleChange name value fd) = keys fd).
Proof.
  unfold handleChange. split.
  - intros k N. apply get_set_other. exact N.
  - apply keys_set_in.
Qed.

Lemma handleChange_changes_one_field_witness :
  get (handleChange "prio" (Js.str "7") formData0) "utime"
  = get formData0 "utime".
Proof.
  apply (handleChange_changes_one_field "prio" (Js.str "7") formData0).
  discriminate.
Defined.

(** X7: of two changes of the same input the last one wins, and changes of
    two different inputs of the form give the same form data in either
    order. *)
Theorem handleChange_last_wins_and_commutes
    (n1 n2 : string) (v1 v2 : Js.String) (fd : FormData) :
  handleChange n1 v2 (handleChange n1 v1 fd) = handleChange n1 v2 fd
  /\ (n1 <> n2 -> In n1 (keys fd) -> In n2 (keys fd) ->
      handleChange n2 v2 (handleChange n1 v1 fd)
      = handleChange n1 v1 (handleChange n2 v2 fd)).
Proof.
  unfold handleChange. split.
  - apply set_set_same.
  - intros N I1 I2. apply set_set_other; assumption.
Qed.

Lemma handleChange_last_wins_and_commutes_witness :
  handleChange "utime" (Js.str "9")
    (handleChange "prio" (Js.str "7") formData0)
  = handleChange "prio" (Js.str "7")
      (handleChange "utime" (Js.str "9") formData0).
Proof.
  apply (handleChange_last_wins_and_commutes
           "prio" "utime" (Js.str "7") (Js.str "9") formData0).
  - discriminate.
  - apply includes_In. reflexivity.
  - apply includes_In. reflexivity.
Defined.

Lemma get_loadExample (type : string) (fd : FormData) (k : string) :
  get (loadExample type fd) k
  = if String.eqb k "nvcsw"
    then Some (if String.eqb type "malware" then Js.of_Z 100 else Js.of_Z 5)
    else if String.eqb k "free_area_cache"
    then Some (if String.eqb type "malware" then Js.of_Z 50000
               else Js.of_Z 10000)
    else if String.eqb k "utime"
    then Some (if String.eqb type "malware" then Js.of_Z 410000
               else Js.of_Z 370000)
    else if String.eqb k "static_prio"
    then Some (if String.eqb type "malware" then Js.of_Z 25000
               else Js.of_Z 14000)
    else get fd k.
Proof.
  unfold loadExample.
  destruct (String.eqb type "malware");
    (destruct (String.eqb_spec k "nvcsw") as [-> | N1];
     [apply get_set_same | rewrite get_set_other by exact N1]);
    (destruct (String.eqb_spec k "free_area_cache") as [-> | N2];
     [apply get_set_same | rewrite get_set_other by exact N2]);
    (destruct (String.eqb_spec k "utime") as [-> | N3];
     [apply get_set_same | rewrite get_set_other by exact N3]);
    (destruct (String.eqb_spec k "static_prio") as [-> | N4];
     [apply get_set_same | rewrite get_set_other by exact N4]);
    reflexivity.
Qed.

(** X8: an example button sets four fields, [static_prio], [utime],
    [free_area_cache] and [nvcsw], to the values of its example, the
    benign ones for any type other than [malware], and leaves every other
    field as the user had it. *)
Theorem loadExample_sets_four_fields (type : string) (fd : FormData) :
  (forall k, ~ In k exampleFields ->
             get (loadExample type fd) k = get fd k)
  /\ (get (loadExample "malware" fd) "static_prio" = Some (Js.of_Z 25000)
      /\ get (loadExample "malware" fd) "utime" = Some (Js.of_Z 410000)
      /\ get (loadExample "malware" fd) "free_area_cache"
         = Some (Js.of_Z 50000)
      /\ get (loadExample "malware" fd) "nvcsw" = Some (Js.of_Z 100))
  /\ (type <> "malware" ->
      get (loadExample type fd) "static_prio" = Some (Js.of_Z 14000)
      /\ get (loadExample type fd) "utime" = Some (Js.of_Z 370000)
      /\ get (loadExample type fd) "free_area_cache" = Some (Js.of_Z 10000)
      /\ get (loadExample type fd) "nvcsw" = Some (Js.of_Z 5)).
Proof.
  split; [| split].
  - intros k N. rewrite get_loadExample. unfold exampleFields in N.
    cbn [In] in N.
    destruct (String.eqb_spec k "nvcsw"); [intuition congruence |].
    destruct (String.eqb_spec k "free_area_cache"); [intuition congruence |].
    destruct (String.eqb_spec k "utime"); [intuition congruence |].
    destruct (String.eqb_spec k "static_prio"); [intuition congruence |].
    reflexivity.
  - rewrite !get_loadExample. repeat split.
  - intros N. apply String.eqb_neq in N. rewrite !get_loadExample, N.
    repeat split.
Qed.

Lemma loadExample_sets_four_fields_witness :
  get (loadExample "benign" formData0) "nvcsw" = Some (Js.of_Z 5).
Proof.
  apply (loadExample_sets_four_fields "benign" formData0). discriminate.
Defined.

Lemma NoDup_keys_formData0 : NoDup (keys formData0).
Proof.
  replace (keys formData0) with (List.nodup string_dec (keys formData0))
    by (vm_compute; reflexivity).
  apply NoDup_nodup.
Qed.

(** Two objects with the same keys, each once, and the same value under
    every key are the same object. *)
Lemma form_ext (o1 o2 : FormData) :
  keys o1 = keys o2 -> NoDup (keys o1) ->
  (forall k, In k (keys o1) -> get o1 k = get o2 k) ->
  o1 = o2.
Proof.
  revert o2. induction o1 as [| [k v] o1 IH]; intros [| [k2 v2] o2] K N G;
    try discriminate K; [reflexivity |].
  cbn [keys List.map fst] in K, N, G. injection K as Ek K. subst k2.
  inversion N as [| k' l Hk N']. subst.
  assert (Ev : v = v2).
  { specialize (G k (or_introl eq_refl)). cbn [get] in G.
    rewrite String.eqb_refl in G. congruence. }
  subst v2. f_equal. apply IH; [exact K | exact N' |].
  intros k' Hk'. specialize (G k' (or_intror Hk')). cbn [get] in G.
  destruct (String.eqb_spec k k') as [E | E]; [| exact G].
  subst k'. contradiction.
Qed.

(** X9: on the form, loading an example after another one gives what
    loading the last one alone gives; in particular loading the same
    example twice changes nothing more. *)
Theorem loadExample_last_wins (t1 t2 : string) (fd : FormData) :
  reachable fd ->
  loadExample t2 (loadExample t1 fd) = loadExample t2 fd.
Proof.
  intros R. apply keys_reachable in R.
  assert (K1 : keys (loadExample t1 fd) = keys formData0)
    by (rewrite keys_loadExample; assumption).
  apply form_ext.
  - rewrite !keys_loadExample; congruence.
  - rewrite keys_loadExample, K1 by exact K1. apply NoDup_keys_formData0.
  - intros k _. rewrite !get_loadExample.
    destruct (String.eqb k "nvcsw"); [reflexivity |].
    destruct (String.eqb k "free_area_cache"); [reflexivity |].
    destruct (String.eqb k "utime"); [reflexivity |].
    destruct (String.eqb k "static_prio"); reflexivity.
Qed.

Lemma loadExample_last_wins_witness :
  loadExample "benign" (loadExample "malware" formData0)
  = loadExample "benign" formData0.
Proof.
  apply (loadExample_last_wins "malware" "benign" formData0).
  apply reach_initial.
Defined.

Lemma Forall_set (P : Js.Number -> Prop) (o : FormData) k v :
  Forall (fun kv => P (snd kv)) o -> P v ->
  Forall (fun kv => P (snd kv)) (set o k v).
Proof.
  intros F Hv. induction F as [| [h x] o Hx F IH]; cbn [set].
  - constructor; [exact Hv | constructor].
  - destruct (String.eqb h k); constructor; assumption.
Qed.

Lemma reachable_integerOrInfinite (fd : FormData) :
  reachable fd -> Forall (fun kv => integerOrInfinite (snd kv)) fd.
Proof.
  induction 1 as [| fd name value R IH Hin | fd type R IH].
  - unfold formData0.
    repeat (apply Forall_cons; [apply of_Z_integral |]). apply Forall_nil.
  - unfold handleChange. apply Forall_set; [exact IH |].
    apply storedValue_integral.
  - unfold loadExample.
    destruct (String.eqb type "malware");
      repeat (apply Forall_set; [| apply of_Z_integral]); exact IH.
Qed.

(** X10: in every state that the form can reach, every field holds an
    integer-valued Number or an infinity, and every value of the body of
    the malware request is an integer or, for an infinity, [null]: no
    fraction and no NaN is ever sent. *)
Theorem reachable_form_sends_integers_or_null (st : State) :
  reachable (formData st) ->
  Forall (fun kv => integerOrInfinite (snd kv)) (formData st)
  /\ Forall (fun kj => (exists x, snd kj = JNumber x
                                  /\ Js.isInteger x = true)
                       \/ snd kj = JNull)
            (body (snd (handleSubmit_start st))).
Proof.
  intros R. apply reachable_integerOrInfinite in R. split; [exact R |].
  cbn [handleSubmit_start snd body]. apply Forall_map.
  eapply Forall_impl; [| exact R].
  intros [k x] [I | [s ->]]; cbn [snd fst] in *; unfold jsonOfNumber.
  - destruct x as [s | s | | s m e]; try discriminate I;
      cbn [Js.is_finite]; left; eauto.
  - right. reflexivity.
Qed.

Lemma reachable_form_sends_integers_or_null_witness :
  Forall (fun kv => integerOrInfinite (snd kv)) (formData form_state_edited).
Proof.
  apply (reachable_form_sends_integers_or_null form_state_edited).
  apply reach_change; [apply reach_example; apply reach_initial |].
  apply includes_In. reflexivity.
Defined.

End MalwareFormMore.

(** ** More on [parseInt] *)

Section ParseIntMore.

Import MalwareDetector.

(** The ten cases of a decimal digit. *)
Ltac decimal_cases c H :=
  let E := fresh "E" in
  assert (E : (c = 48 \/ c = 49 \/ c = 50 \/ c = 51 \/ c = 52 \/ c = 53
               \/ c = 54 \/ c = 55 \/ c = 56 \/ c = 57)%N)
    by (unfold isDecimalDigit in H; lia);
  clear H;
  destruct E as [E | [E | [E | [E | [E | [E | [E | [E | [E | E]]]]]]]]];
  subst c.

Lemma digitValue_not_decimal (c : N) :
  ~ isDecimalDigit c ->
  match Js.digitValue c with
  | Some d => 10 <= d
  | None => True
  end.
Proof.
  unfold isDecimalDigit, Js.digitValue. intros H.
  destruct (N.leb_spec 48 c); destruct (N.leb_spec c 57); cbn [andb];
    try lia;
    (destruct (N.leb_spec 97 c); destruct (N.leb_spec c 122); cbn [andb];
     try lia;
     destruct (N.leb_spec 65 c); destruct (N.leb_spec c 90); cbn [andb];
     try lia; exact I).
Qed.

Lemma digitsPrefix_stop (ds tail : Js.String) :
  Forall isDecimalDigit ds -> stopsDigits tail ->
  Js.digitsPrefix 10 (ds ++ tail) = List.map (fun c => Z.of_N c - 48) ds.
Proof.
  intros F S. induction F as [| c ds Hc F IH].
  - destruct tail as [| c r]; [reflexivity |].
    cbn [app List.map Js.digitsPrefix]. destruct S as [S _].
    pose proof (digitValue_not_decimal c S) as V.
    destruct (Js.digitValue c) as [d |]; [| reflexivity].
    destruct (Z.ltb_spec d 10); [lia | reflexivity].
  - cbn [app Js.digitsPrefix List.map]. rewrite IH.
    decimal_cases c Hc; reflexivity.
Qed.

(** A code unit that is neither [x] nor [X], bit by bit. *)
Ltac not_x c H120 H88 :=
  let p := fresh "p" in
  destruct c as [| p]; [reflexivity |];
  do 7 (try (destruct p as [p | p |]; try reflexivity;
             try (exfalso; apply H120; reflexivity);
             try (exfalso; apply H88; reflexivity))).

(** The head of parseInt on digits, after an optional sign: the radix is
    10 and the digits are read from the start. *)
Lemma parseInt_head (ds tail : Js.String) :
  ds <> [] -> Forall isDecimalDigit ds -> stopsDigits tail ->
  Js.parseInt (ds ++ tail)
  = match Js.digitsPrefix 10 (ds ++ tail) with
    | [] => Js.NaN
    | d :: l =>
        if Js.mathInt 10 (d :: l) =? 0 then S754_zero false
        else Js.of_Z (1 * Js.mathInt 10 (d :: l))
    end
  /\ Js.parseInt (43%N :: ds ++ tail) = Js.parseInt (ds ++ tail)
  /\ Js.parseInt (45%N :: ds ++ tail)
     = match Js.digitsPrefix 10 (ds ++ tail) with
       | [] => Js.NaN
       | d :: l =>
           if Js.mathInt 10 (d :: l) =? 0 then S754_zero true
           else Js.of_Z (-1 * Js.mathInt 10 (d :: l))
       end.
Proof.
  intros Hne F S.
  destruct ds as [| c ds]; [congruence | clear Hne].
  inversion F as [| c' ds' Hc F']. subst.
  destruct ds as [| c2 ds].
  - destruct tail as [| t r].
    + decimal_cases c Hc; repeat split.
    + destruct S as [_ [H120 H88]].
      decimal_cases c Hc; try (repeat split; fail).
      repeat split; not_x t H120 H88.
  - inversion F' as [| c2' ds2 Hc2 F'']. subst.
    decimal_cases c Hc; try (repeat split; fail).
    decimal_cases c2 Hc2; repeat split.
Qed.

Lemma parseInt_digits (ds tail : Js.String) :
  ds <> [] -> Forall isDecimalDigit ds -> stopsDigits tail ->
  Js.parseInt (ds ++ tail)
  = (if decimalValue ds =? 0 then S754_zero false
     else Js.of_Z (decimalValue ds))
  /\ Js.parseInt (45%N :: ds ++ tail)
     = (if decimalValue ds =? 0 then S754_zero true
        else Js.of_Z (- decimalValue ds)).
Proof.
  intros Hne F S.
  destruct (parseInt_head ds tail Hne F S) as [H1 [_ H2]].
  rewrite H1, H2, (digitsPrefix_stop ds tail F S).
  destruct ds as [| c ds]; [congruence |].
  unfold decimalValue. cbn [List.map].
  rewrite Z.mul_1_l.
  replace (-1 * Js.mathInt 10 (Z.of_N c - 48
                                :: List.map (fun c0 => Z.of_N c0 - 48) ds))
    with (- Js.mathInt 10 (Z.of_N c - 48
                            :: List.map (fun c0 => Z.of_N c0 - 48) ds))
    by lia.
  split; reflexivity.
Qed.

Lemma storedValue_of_Z (z : Z) :
  z <> 0 -> Z.abs z < 2 ^ 53 ->
  Js.or_else (Js.of_Z z) Js.lit_0 = Js.of_Z z.
Proof.
  intros Nz B. pose proof (of_Z_exact z B) as X. unfold Js.or_else.
  destruct (Js.of_Z z) as [s | s | | s m e]; cbn [Js.truthy];
    try reflexivity; cbn in X; congruence.
Qed.

(** X11: parseInt reads the leading decimal digits and ignores whatever
    follows them, an exponent as much as a unit or a space: the field
    stores the value of the digits alone, so that [1e3] stores 1. *)
Theorem storedValue_reads_leading_digits (ds tail : Js.String) :
  ds <> [] -> Forall isDecimalDigit ds -> stopsDigits tail ->
  storedValue (ds ++ tail) = storedValue ds
  /\ (decimalValue ds < 2 ^ 53 ->
      integerOf (storedValue (ds ++ tail)) = Some (decimalValue ds)).
Proof.
  intros Hne F S.
  destruct (parseInt_digits ds tail Hne F S) as [P1 _].
  destruct (parseInt_digits ds [] Hne F I) as [P0 _].
  rewrite app_nil_r in P0.
  assert (E : storedValue (ds ++ tail) = storedValue ds)
    by (unfold storedValue; rewrite P1, P0; reflexivity).
  split; [exact E |].
  intros B. rewrite E. unfold storedValue. rewrite P0.
  pose proof (decimalValue_nonneg ds F) as N.
  destruct (Z.eqb_spec (decimalValue ds) 0) as [Z0 | NZ].
  - rewrite Z0. reflexivity.
  - rewrite storedValue_of_Z by lia. apply of_Z_exact. lia.
Qed.

Lemma storedValue_reads_leading_digits_witness :
  storedValue (Js.str "1e3") = storedValue (Js.str "1")
  /\ integerOf (storedValue (Js.str "1e3")) = Some 1.
Proof.
  destruct (storedValue_reads_leading_digits (Js.str "1") (Js.str "e3"))
    as [H1 H2].
  - discriminate.
  - repeat constructor; unfold isDecimalDigit; cbn; lia.
  - cbn. unfold isDecimalDigit. repeat split; [lia | discriminate ..].
  - split; [exact H1 |]. apply H2. vm_compute. reflexivity.
Defined.

(** X12: a sign before the digits is read: a plus sign changes nothing, a
    minus sign negates, so that the form stores negative integers as they
    are typed; minus zero is stored as 0. *)
Theorem storedValue_reads_sign (ds tail : Js.String) :
  ds <> [] -> Forall isDecimalDigit ds -> stopsDigits tail ->
  decimalValue ds < 2 ^ 53 ->
  storedValue (43%N :: ds ++ tail) = storedValue (ds ++ tail)
  /\ storedValue (45%N :: ds ++ tail)
     = (if decimalValue ds =? 0 then Js.lit_0
        else Js.of_Z (- decimalValue ds))
  /\ integerOf (storedValue (45%N :: ds ++ tail))
     = Some (- decimalValue ds).
Proof.
  intros Hne F S B.
  destruct (parseInt_head ds tail Hne F S) as [_ [Pp _]].
  destruct (parseInt_digits ds tail Hne F S) as [_ Pm].
  pose proof (decimalValue_nonneg ds F) as N.
  assert (E : storedValue (45%N :: ds ++ tail)
              = (if decimalValue ds =? 0 then Js.lit_0
                 else Js.of_Z (- decimalValue ds))).
  { unfold storedValue. rewrite Pm.
    destruct (Z.eqb_spec (decimalValue ds) 0) as [Z0 | NZ];
      [reflexivity |].
    apply storedValue_of_Z; lia. }
  split; [unfold storedValue; rewrite Pp; reflexivity |].
  split; [exact E |]. rewrite E.
  destruct (Z.eqb_spec (decimalValue ds) 0) as [Z0 | NZ].
  - rewrite Z0. reflexivity.
  - apply of_Z_exact. lia.
Qed.

Lemma storedValue_reads_sign_witness :
  integerOf (storedValue (Js.str "-17.9")) = Some (-17).
Proof.
  apply (storedValue_reads_sign (Js.str "17") (Js.str ".9")).
  - discriminate.
  - repeat constructor; unfold isDecimalDigit; cbn; lia.
  - cbn. unfold isDecimalDigit. repeat split; [lia | discriminate ..].
  - vm_compute. reflexivity.
Defined.

End ParseIntMore.

(** ** [calculateDetectionRate] *)

Section DetectionRate.

Lemma div_eucl_eq (a b : Z) : Z.div_eucl a b = (a / b, a mod b).
Proof.
  unfold Z.div, Z.modulo. destruct (Z.div_eucl a b). reflexivity.
Qed.

(** A finite Number divided by itself is exactly 1. *)
Lemma div_self (s : bool) (m : positive) (e : Z) :
  Js.div (S754_finite s m e) (S754_finite s m e) = Js.lit_1.
Proof.
  unfold Js.div, SF64div, SFdiv, SFdiv_core_binary. cbn [Zdigits2].
  replace (Zpos (digits2_pos m) + e - (Zpos (digits2_pos m) + e))
    with 0 by lia.
  rewrite Z.sub_diag.
  change (Z.min (fexp prec emax 0) 0) with (-53).
  change (0 - -53) with 53.
  rewrite Z.shiftl_mul_pow2 by lia.
  rewrite div_eucl_eq, (Z.mul_comm (Zpos m)), Z.div_mul, Z.mod_mul by lia.
  assert (L : new_location (Zpos m) 0 = loc_Exact)
    by (unfold new_location; destruct (Z.even (Zpos m)); reflexivity).
  rewrite L. destruct s; vm_compute; reflexivity.
Qed.

Lemma of_Z_pos_finite (n : Z) :
  0 < n < 2 ^ 53 -> exists m e, Js.of_Z n = S754_finite false m e.
Proof.
  intros [H0 H1]. destruct n as [| p | p]; try lia.
  unfold Js.of_Z, binary_normalize.
  assert (Hd : Zpos (digits2_pos p) <= 53)
    by (apply (Zdigits2_le (Zpos p) 53); lia).
  destruct (binary_round_small false p Hd) as [mz [_ ->]]. eauto.
Qed.

Lemma filter_none {A : Type} (f : A -> bool) (l : list A) :
  (forall x, In x l -> f x = false) -> List.filter f l = [].
Proof.
  induction l as [| x l IH]; intros H; [reflexivity |].
  cbn [List.filter]. rewrite (H x (or_introl eq_refl)).
  apply IH. intros y Hy. apply H. right. exact Hy.
Qed.

Lemma filter_all {A : Type} (f : A -> bool) (l : list A) :
  (forall x, In x l -> f x = true) -> List.filter f l = l.
Proof.
  induction l as [| x l IH]; intros H; [reflexivity |].
  cbn [List.filter]. rewrite (H x (or_introl eq_refl)). f_equal.
  apply IH. intros y Hy. apply H. right. exact Hy.
Qed.

(** X13: the detection rate at its ends.  Of no prediction it is [0%],
    without a decimal; of predictions none of which is a detected threat
    it is [0.0%]; of predictions that are all detected threats it is
    [100.0%]. *)
Theorem calculateDetectionRate_extremes (predictions : list Prediction) :
  calculateDetectionRate [] = "0%"
  /\ (predictions <> [] ->
      Z.of_nat (List.length predictions) < 2 ^ 53 ->
      ((forall p, In p predictions -> isDetected p = false) ->
       calculateDetectionRate predictions = "0.0%")
      /\ ((forall p, In p predictions -> isDetected p = true) ->
          calculateDetectionRate predictions = "100.0%")).
Proof.
  split; [reflexivity |]. intros Hne B.
  assert (Hlen : 0 < Z.of_nat (List.length predictions))
    by (destruct predictions; [congruence | cbn [List.length]; lia]).
  destruct (of_Z_pos_finite _ (conj Hlen B)) as [m [e E]].
  unfold calculateDetectionRate.
  destruct (Nat.eqb_spec (List.length predictions) 0) as [Z0 | _]; [lia |].
  split; intros H.
  - rewrite (filter_none _ _ H), E. reflexivity.
  - rewrite (filter_all _ _ H), E, div_self. reflexivity.
Qed.

Lemma calculateDetectionRate_extremes_witness :
  calculateDetectionRate [spamEntry body_0_3; spamEntry body_1] = "100.0%".
Proof.
  apply (calculateDetectionRate_extremes [spamEntry body_0_3; spamEntry body_1]).
  - discriminate.
  - vm_compute. reflexivity.
  - intros p [<- | [<- | []]]; reflexivity.
Defined.

End DetectionRate.

(** ** The simulated counts fill their ranges *)

Section CountsAttained.

Import AnalyticsDashboard.

Lemma spam_count_attained (j : Z) :
  0 <= j < 20 ->
  is_random (drawFor 20 j) = true
  /\ Js.add (Js.Math_floor (Js.mul (drawFor 20 j) Js.lit_20)) Js.lit_5
     = Js.of_Z (j + 5).
Proof.
  intros H.
  assert (E : j = 0 \/ j = 1 \/ j = 2 \/ j = 3 \/ j = 4 \/ j = 5 \/ j = 6
              \/ j = 7 \/ j = 8 \/ j = 9 \/ j = 10 \/ j = 11 \/ j = 12
              \/ j = 13 \/ j = 14 \/ j = 15 \/ j = 16 \/ j = 17 \/ j = 18
              \/ j = 19) by lia.
  repeat (destruct E as [E | E];
          [subst j; split; vm_compute; reflexivity |]).
  subst j. split; vm_compute; reflexivity.
Qed.

Lemma malware_count_attained (j : Z) :
  0 <= j < 15 ->
  is_random (drawFor 15 j) = true
  /\ Js.add (Js.Math_floor (Js.mul (drawFor 15 j) Js.lit_15)) Js.lit_3
     = Js.of_Z (j + 3).
Proof.
  intros H.
  assert (E : j = 0 \/ j = 1 \/ j = 2 \/ j = 3 \/ j = 4 \/ j = 5 \/ j = 6
              \/ j = 7 \/ j = 8 \/ j = 9 \/ j = 10 \/ j = 11 \/ j = 12
              \/ j = 13 \/ j = 14) by lia.
  repeat (destruct E as [E | E];
          [subst j; split; vm_compute; reflexivity |]).
  subst j. split; vm_compute; reflexivity.
Qed.

(** X14: the ranges of the simulated counts are exact: for every integer
    from 5 to 24 and every integer from 3 to 17 there are two draws of
    [Math.random()] for which the new point has that spam count and that
    malware count. *)
Theorem simulated_counts_attained (ks km : Z) (clock : string) :
  5 <= ks <= 24 -> 3 <= km <= 17 ->
  exists t,
    now t = clock
    /\ is_random (random1 t) = true /\ is_random (random2 t) = true
    /\ spam (newPoint t) = Js.of_Z ks
    /\ malware (newPoint t) = Js.of_Z km.
Proof.
  intros Hs Hm.
  exists {| now := clock; random1 := drawFor 20 (ks - 5);
            random2 := drawFor 15 (km - 3) |}.
  destruct (spam_count_attained (ks - 5) ltac:(lia)) as [R1 S1].
  destruct (malware_count_attained (km - 3) ltac:(lia)) as [R2 S2].
  cbn [now random1 random2 newPoint spam malware].
  rewrite S1, S2.
  replace (ks - 5 + 5) with ks by lia. replace (km - 3 + 3) with km by lia.
  repeat split; assumption.
Qed.

Lemma simulated_counts_attained_witness :
  exists t,
    now t = "12:00:00"
    /\ is_random (random1 t) = true /\ is_random (random2 t) = true
    /\ spam (newPoint t) = Js.of_Z 24
    /\ malware (newPoint t) = Js.of_Z 3.
Proof.
  apply (simulated_counts_attained 24 3 "12:00:00"); lia.
Defined.

End CountsAttained.

(** ** The chart and the order of the results *)

Section ChartOrder.

Import ConfidenceChart.

Lemma filter_length_perm {A : Type} (f : A -> bool) (l l' : list A) :
  Permutation l l' ->
  List.length (List.filter f l) = List.length (List.filter f l').
Proof.
  induction 1 as [| x l l' P IH | x y l | l l' l'' P1 IH1 P2 IH2].
  - reflexivity.
  - cbn [List.filter]. destruct (f x); cbn [List.length]; congruence.
  - cbn [List.filter]. destruct (f x); destruct (f y); reflexivity.
  - congruence.
Qed.

(** X15: the histogram does not depend on the order of the results: two
    lists with the same results in any order give the same bins. *)
Theorem histogram_order_independent (l l' : list Prediction) :
  Permutation l l' -> histogram l = histogram l'.
Proof.
  intros P. unfold histogram, mapi.
  generalize 0%nat. induction (removelast bins) as [| b bs IH]; intros i.
  - reflexivity.
  - cbn [mapi_from]. rewrite (filter_length_perm _ l l' P), IH.
    reflexivity.
Qed.

Lemma histogram_order_independent_witness :
  histogram [spamEntry body_0_3; spamEntry body_1]
  = histogram [spamEntry body_1; spamEntry body_0_3].
Proof.
  apply histogram_order_independent. apply perm_swap.
Defined.

End ChartOrder.
